(** * Used-car price form (src/app.py): artifact loading and feature encoding

    The program is a Streamlit form in three parts.  Part 1 loads a model and
    a handful of lookup tables from fixed paths, part 2 is the encoder
    [codificar_datos_para_modelo] that turns the form's raw values into the
    single row the model is fed, part 3 is the form itself.

    This development embeds the three parts:
    - Python's [dict] is a [gmap] keyed by strings;
    - Python's unbounded [int] is [Z];
    - the numbers stored in the target-encoding tables are only ever copied,
      never computed with, so their type is a parameter ([float]);
    - exceptions are an explicit error type and the code that can raise
      returns a [result];
    - the files on disk and the few [os] functions the error banner calls
      are inputs of the loader;
    - [xgb.DMatrix] is the library's constructor: which frames it accepts
      is an input of the encoder ([xgb_DMatrix]), as is the type of the
      object it returns;
    - [st.cache_data] stores the value the encoder computes, pickled,
      before it returns it; a [DMatrix] cannot be pickled. *)

From stdpp Require Import gmap strings list fin_maps.
From Stdlib Require Import ZArith QArith.
Local Open Scope Z_scope.
Local Open Scope string_scope.

(** ** Exceptions and fallible computations *)

(** The exception classes the program distinguishes.  [str_e] is what
    [str(e)] / [f"{e}"] renders. *)
Inductive exn : Type :=
| FileNotFoundError (str_e : string)
| XGBoostError (str_e : string)
| KeyError (str_e : string)
| OtherException (str_e : string).

Definition exn_str (e : exn) : string :=
  match e with
  | FileNotFoundError s | XGBoostError s | KeyError s | OtherException s => s
  end.

(** A computation that returns a value or raises. *)
Inductive result (A : Type) : Type :=
| Ok (a : A)
| Raise (e : exn).
Arguments Ok {A} a.
Arguments Raise {A} e.

#[global] Instance result_ret : MRet result := fun _ a => Ok a.
#[global] Instance result_bind : MBind result := fun _ _ f m =>
  match m with
  | Ok a => f a
  | Raise e => Raise e
  end.

(** [try: m except: h] with a bare [except:] clause: every exception is
    handled. *)
Definition try_except {A : Type} (m : result A) (h : A) : A :=
  match m with
  | Ok a => a
  | Raise _ => h
  end.

(** ** Values held by the feature dictionary *)

Section Program.

(** The type of the numbers stored in the target-encoding tables. *)
Context {float : Type}.

(** A cell of the feature dictionary: a Python [int] (the literals [0]
    and [1], the odometer, the age) or a number copied from a table. *)
Inductive value : Type :=
| VInt (z : Z)
| VFloat (x : float).

(** The state the loader leaves behind (the module's globals). *)
Record artifacts {Booster : Type} : Type := {
  final_model : Booster;
  X_train_columns : list string;
  manufacturer_target_encoding : gmap string float;
  paint_color_target_encoding : gmap string float;
  state_target_encoding : gmap string float;
  CylindersUnique : list string;
  FuelUnique : list string;
  TransmissionUnique : list string;
  DriveUnique : list string;
  SizeUnique : list string;
  ANO_ACTUAL : Z;
  ManufacturerUnique : list string;
  PaintColorUnique : list string;
  StateUnique : list string;
}.
Arguments artifacts : clear implicits.

(** What each load call does on the machine the program runs on: the
    deserialised object, or the exception the library raises. *)
Record files {Booster : Type} : Type := {
  load_model : result Booster;
  load_X_train_columns : result (list string);
  load_manufacturer_target_encoding : result (gmap string float);
  load_paint_color_target_encoding : result (gmap string float);
  load_state_target_encoding : result (gmap string float);
  load_CylindersUnique : result (list string);
  load_FuelUnique : result (list string);
  load_TransmissionUnique : result (list string);
  load_DriveUnique : result (list string);
  load_SizeUnique : result (list string);
  load_ANO_ACTUAL : result Z;
}.
Arguments files : clear implicits.

(** [list(d.keys())].  A [gmap] does not remember insertion order, so the
    keys come in the map's own order; the lists only fill the select boxes. *)
Definition keys (d : gmap string float) : list string := (map_to_list d).*1.

(** ** Part 1: the body of the outer [try] (lines 15-45) *)

Definition cargar {Booster : Type} (fs : files Booster) : result (artifacts Booster) :=
  final_model ← load_model fs;
  X_train_columns ← load_X_train_columns fs;
  manufacturer_target_encoding ← load_manufacturer_target_encoding fs;
  paint_color_target_encoding ← load_paint_color_target_encoding fs;
  state_target_encoding ← load_state_target_encoding fs;
  CylindersUnique ← load_CylindersUnique fs;
  FuelUnique ← load_FuelUnique fs;
  TransmissionUnique ← load_TransmissionUnique fs;
  DriveUnique ← load_DriveUnique fs;
  SizeUnique ← load_SizeUnique fs;
  let ANO_ACTUAL := try_except (load_ANO_ACTUAL fs) 2024 in
  mret {|
    final_model := final_model;
    X_train_columns := X_train_columns;
    manufacturer_target_encoding := manufacturer_target_encoding;
    paint_color_target_encoding := paint_color_target_encoding;
    state_target_encoding := state_target_encoding;
    CylindersUnique := CylindersUnique;
    FuelUnique := FuelUnique;
    TransmissionUnique := TransmissionUnique;
    DriveUnique := DriveUnique;
    SizeUnique := SizeUnique;
    ANO_ACTUAL := ANO_ACTUAL;
    ManufacturerUnique := keys manufacturer_target_encoding;
    PaintColorUnique := keys paint_color_target_encoding;
    StateUnique := keys state_target_encoding;
  |}.

(** ** Part 1: the handlers of the outer [try] (lines 47-62) *)

Definition MODEL_PATH : string := "../models/hiper_xgboost_50iter_42.json".

(** [s.split(sep)] for a non-empty [sep]: cut at each occurrence of [sep],
    found from left to right and never overlapping.  [skip] counts the
    characters of an occurrence still to be dropped, [cur] is the piece being
    read. *)
Fixpoint split_go (sep : string) (skip : nat) (cur s : string) : list string :=
  match s with
  | EmptyString => [cur]
  | String c s' =>
      match skip with
      | S n => split_go sep n cur s'
      | O =>
          if String.prefix sep s
          then cur :: split_go sep (String.length sep - 1) "" s'
          else split_go sep 0 (cur +:+ String c "") s'
      end
  end.

Definition split (sep s : string) : list string := split_go sep 0 "" s.

(** [l[-1]] on the list a [split] returns, which is never empty. *)
Definition ultimo (l : list string) : string := default "" (last l).

(** The functions of [os] the banner of the first handler calls. *)
Record os_iface : Type := {
  os_path_abspath : string → string;
  os_getcwd : string;
  os_path_join : string → string → string;
}.

(** The banner of the [FileNotFoundError] handler (lines 49-58). *)
Definition banner_archivo (os : os_iface) (e : exn) : string :=
  "
        Error: No se pudo cargar un archivo necesario. 
        Asegúrate de que el modelo y TODOS los archivos .joblib se encuentren 
        en las ubicaciones correctas.

        - Modelo esperado: " +:+ os_path_abspath os MODEL_PATH +:+ "
        - Archivos .joblib esperados: "
    +:+ os_path_join os (os_getcwd os) (ultimo (split ": " (exn_str e))) +:+ "
        
        Falta: " +:+ exn_str e +:+ "
    ".

(** The banner of the [XGBoostError] handler (line 61). *)
Definition banner_modelo (e : exn) : string :=
  "Error al cargar el modelo XGBoost desde " +:+ MODEL_PATH +:+ ": " +:+ exn_str e.

(** How part 1 ends. *)
Inductive arranque {Booster : Type} : Type :=
| Continua (g : artifacts Booster)
    (* no handler ran: the script goes on to parts 2 and 3 *)
| Detenido (banner : string)
    (* [st.error(banner)] then [st.stop()] *)
| NoCapturada (e : exn).
    (* no [except] clause matches: the exception leaves the script *)
Arguments arranque : clear implicits.

Definition parte1 {Booster : Type} (os : os_iface) (fs : files Booster)
  : arranque Booster :=
  match cargar fs with
  | Ok g => Continua g
  | Raise (FileNotFoundError s) => Detenido (banner_archivo os (FileNotFoundError s))
  | Raise (XGBoostError s) => Detenido (banner_modelo (XGBoostError s))
  | Raise e => NoCapturada e
  end.

(** ** Part 2: the encoder (lines 69-125) *)

(** [{col: 0 for col in X_train_columns}] *)
Definition dict_ceros (cols : list string) : gmap string value :=
  foldl (λ d col, <[col := VInt 0]> d) ∅ cols.

(** The inner helper [activar_ohe] (lines 95-98); it assigns into the
    enclosing [datos], threaded here as an argument and a result. *)
Definition activar_ohe (feature_name selected_value : string)
    (datos : gmap string value) : gmap string value :=
  let col_name := feature_name +:+ "_" +:+ selected_value in
  if decide (is_Some (datos !! col_name))
  then <[col_name := VInt 1]> datos
  else datos.

(** Lines 75-117: the dictionary [datos] as it stands before the
    conversion to a frame. *)
Definition datos_codificados {Booster : Type} (g : artifacts Booster)
    (odometer year : Z)
    (manufacturer paint_color state cylinders fuel transmission drive size : string)
    (X_train_columns : list string) : gmap string value :=
  let age := ANO_ACTUAL g - year in
  let manufacturer_encoded :=
    default (VInt 0) (VFloat <$> manufacturer_target_encoding g !! manufacturer) in
  let paint_color_encoded :=
    default (VInt 0) (VFloat <$> paint_color_target_encoding g !! paint_color) in
  let state_encoded :=
    default (VInt 0) (VFloat <$> state_target_encoding g !! state) in
  let datos := dict_ceros X_train_columns in
  let datos := <["odometer" := VInt odometer]> datos in
  let datos := <["age" := VInt age]> datos in
  let datos := <["manufacturer_encoded" := manufacturer_encoded]> datos in
  let datos := <["paint_color_encoded" := paint_color_encoded]> datos in
  let datos := <["state_encoded" := state_encoded]> datos in
  let datos := activar_ohe "cylinders" cylinders datos in
  let datos := activar_ohe "fuel" fuel datos in
  let datos :=
    if decide (transmission ≠ "automatic")
    then activar_ohe "transmission" transmission datos
    else datos in
  let datos :=
    if decide (drive ≠ "awd")
    then activar_ohe "drive" drive datos
    else datos in
  let datos := activar_ohe "size" size datos in
  datos.

(** The five numeric assignments of lines 83-92, and the activations of
    lines 103-117 as a function of the dictionary they act on:
    [datos_codificados] is the second applied to the first (lemma
    [datos_codificados_pasos]); the proofs go through this factoring. *)
Definition datos_numericos {Booster : Type} (g : artifacts Booster)
    (odometer year : Z) (manufacturer paint_color state : string)
    (X_train_columns : list string) : gmap string value :=
  <["state_encoded" :=
      default (VInt 0) (VFloat <$> state_target_encoding g !! state)]>
  (<["paint_color_encoded" :=
      default (VInt 0) (VFloat <$> paint_color_target_encoding g !! paint_color)]>
  (<["manufacturer_encoded" :=
      default (VInt 0) (VFloat <$> manufacturer_target_encoding g !! manufacturer)]>
  (<["age" := VInt (ANO_ACTUAL g - year)]>
  (<["odometer" := VInt odometer]> (dict_ceros X_train_columns))))).

Definition pasos_ohe (cylinders fuel transmission drive size : string)
    (datos : gmap string value) : gmap string value :=
  let datos := activar_ohe "cylinders" cylinders datos in
  let datos := activar_ohe "fuel" fuel datos in
  let datos :=
    if decide (transmission ≠ "automatic")
    then activar_ohe "transmission" transmission datos
    else datos in
  let datos :=
    if decide (drive ≠ "awd")
    then activar_ohe "drive" drive datos
    else datos in
  activar_ohe "size" size datos.

(** [pd.DataFrame([datos])[cols]]: the one-row frame built from the
    dictionary, then the selection of the labels [cols], in the order of
    [cols]; a label that is not a column of the frame raises [KeyError].
    The frame's own column order (the dictionary's insertion order) is
    replaced by that of [cols], so the row is read off the dictionary. *)
Fixpoint frame_getitem (datos : gmap string value) (cols : list string)
  : result (list (string * value)) :=
  match cols with
  | [] => mret []
  | col :: cols' =>
      match datos !! col with
      | None => Raise (KeyError col)
      | Some v => fila ← frame_getitem datos cols'; mret ((col, v) :: fila)
      end
  end.

(** Lines 75-120: the frame [X_nuevo] the body builds, before it is
    handed to [xgb.DMatrix]. *)
Definition X_nuevo {Booster : Type} (g : artifacts Booster)
    (odometer year : Z)
    (manufacturer paint_color state cylinders fuel transmission drive size : string)
    (X_train_columns : list string) : result (list (string * value)) :=
  let datos :=
    datos_codificados g odometer year manufacturer paint_color state
      cylinders fuel transmission drive size X_train_columns in
  frame_getitem datos X_train_columns.

(** The body of the encoder (lines 75-125), without its decorator.
    [xgb_DMatrix] is the call [xgb.DMatrix(X_nuevo)] of line 123: the
    library returns an object of its own or raises (it refuses, among
    others, integers that do not fit 64 bits and repeated labels). *)
Definition codificar_cuerpo {Booster DMatrix : Type}
    (xgb_DMatrix : list (string * value) → result DMatrix)
    (g : artifacts Booster) (odometer year : Z)
    (manufacturer paint_color state cylinders fuel transmission drive size : string)
    (X_train_columns : list string) : result DMatrix :=
  X_nuevo ← X_nuevo g odometer year manufacturer paint_color state
              cylinders fuel transmission drive size X_train_columns;
  X_dmatrix ← xgb_DMatrix X_nuevo;
  mret X_dmatrix.

(** [pickle.dumps] of a [DMatrix]: the object holds a ctypes pointer and
    the call raises [ValueError]. *)
Definition error_pickle : exn :=
  OtherException "ctypes objects containing pointers cannot be pickled".

Definition pickle_dumps {DMatrix : Type} (X_dmatrix : DMatrix) : result string :=
  Raise error_pickle.

(** [@st.cache_data] (line 69), given what the decorated body does: an
    exception of the body leaves the call; a value is pickled to be stored
    under the arguments before it is returned, and an exception of the
    pickling leaves the call too, with nothing stored.  No call stores an
    entry, so every call runs the body. *)
Definition st_cache_data {DMatrix : Type} (computed : result DMatrix)
  : result DMatrix :=
  computed_value ← computed;
  _ ← pickle_dumps computed_value;
  mret computed_value.

(** The encoder as the form calls it (lines 69-125). *)
Definition codificar_datos_para_modelo {Booster DMatrix : Type}
    (xgb_DMatrix : list (string * value) → result DMatrix)
    (g : artifacts Booster) (odometer year : Z)
    (manufacturer paint_color state cylinders fuel transmission drive size : string)
    (X_train_columns : list string) : result DMatrix :=
  st_cache_data
    (codificar_cuerpo xgb_DMatrix g odometer year manufacturer paint_color
       state cylinders fuel transmission drive size X_train_columns).

End Program.

(** ** The one-hot fields, for the statements *)

Inductive campo : Type := Cylinders | Fuel | Transmission | Drive | Size.

Definition nombre (c : campo) : string :=
  match c with
  | Cylinders => "cylinders"
  | Fuel => "fuel"
  | Transmission => "transmission"
  | Drive => "drive"
  | Size => "size"
  end.

(** The name [activar_ohe] builds for field [c] and value [v]. *)
Definition columna (c : campo) (v : string) : string := nombre c +:+ "_" +:+ v.

(** The value of field [c] whose column the encoder tries to activate, if
    any: the guards of lines 109 and 113 skip the two base values. *)
Definition activa (c : campo) (cylinders fuel transmission drive size : string)
  : option string :=
  match c with
  | Cylinders => Some cylinders
  | Fuel => Some fuel
  | Transmission =>
      if decide (transmission ≠ "automatic") then Some transmission else None
  | Drive => if decide (drive ≠ "awd") then Some drive else None
  | Size => Some size
  end.

(** The value the form passes for field [c]. *)
Definition seleccion (c : campo) (cylinders fuel transmission drive size : string)
  : string :=
  match c with
  | Cylinders => cylinders
  | Fuel => fuel
  | Transmission => transmission
  | Drive => drive
  | Size => size
  end.

(** The base value of a field, where the encoder has one. *)
Definition base (c : campo) : option string :=
  match c with
  | Transmission => Some "automatic"
  | Drive => Some "awd"
  | _ => None
  end.

(** The category list of field [c] among the loaded artifacts. *)
Definition lista {float Booster : Type} (g : @artifacts float Booster) (c : campo)
  : list string :=
  match c with
  | Cylinders => CylindersUnique g
  | Fuel => FuelUnique g
  | Transmission => TransmissionUnique g
  | Drive => DriveUnique g
  | Size => SizeUnique g
  end.

(** ** The target-encoded fields, for the statements *)

Inductive campo_te : Type := Manufacturer | PaintColor | State.

Definition columna_te (f : campo_te) : string :=
  match f with
  | Manufacturer => "manufacturer_encoded"
  | PaintColor => "paint_color_encoded"
  | State => "state_encoded"
  end.

Definition tabla_te {float Booster : Type} (g : @artifacts float Booster)
    (f : campo_te) : gmap string float :=
  match f with
  | Manufacturer => manufacturer_target_encoding g
  | PaintColor => paint_color_target_encoding g
  | State => state_target_encoding g
  end.

Definition valor_te (f : campo_te) (manufacturer paint_color state : string)
  : string :=
  match f with
  | Manufacturer => manufacturer
  | PaintColor => paint_color
  | State => state
  end.

(** The (field, value) pairs handed to [activar_ohe], in call order, and
    the column names they stand for. *)
Definition activaciones (cylinders fuel transmission drive size : string)
  : list (campo * string) :=
  omap (λ c, (c,.) <$> activa c cylinders fuel transmission drive size)
    [Cylinders; Fuel; Transmission; Drive; Size].

Definition columnas_activas (cylinders fuel transmission drive size : string)
  : list string :=
  (λ cv, columna cv.1 cv.2) <$> activaciones cylinders fuel transmission drive size.

(** A run of calls to [activar_ohe]. *)
Definition activar_lista {float : Type} (l : list (campo * string))
    (datos : gmap string (@value float)) : gmap string (@value float) :=
  foldl (λ d cv, activar_ohe (nombre cv.1) cv.2 d) datos l.

(** The columns that receive the form's numbers. *)
Definition columnas_numericas : list string :=
  ["odometer"; "age"; "manufacturer_encoded"; "paint_color_encoded";
   "state_encoded"].

(** ** The loads of part 1, for the statements *)

Definition falla {A : Type} (m : result A) : option exn :=
  match m with
  | Ok _ => None
  | Raise e => Some e
  end.

(** The exception of the first load that raises, among the ten loads that
    are not wrapped in the inner [try] (lines 17-33), in program order. *)
Definition primera_falla {float Booster : Type} (fs : @files float Booster)
  : option exn :=
  head (omap id
    [falla (load_model fs);
     falla (load_X_train_columns fs);
     falla (load_manufacturer_target_encoding fs);
     falla (load_paint_color_target_encoding fs);
     falla (load_state_target_encoding fs);
     falla (load_CylindersUnique fs);
     falla (load_FuelUnique fs);
     falla (load_TransmissionUnique fs);
     falla (load_DriveUnique fs);
     falla (load_SizeUnique fs)]).

(** The globals [g] hold what those ten loads returned. *)
Definition cargados {float Booster : Type} (fs : @files float Booster)
    (g : @artifacts float Booster) : Prop :=
  load_model fs = Ok (final_model g)
  ∧ load_X_train_columns fs = Ok (X_train_columns g)
  ∧ load_manufacturer_target_encoding fs = Ok (manufacturer_target_encoding g)
  ∧ load_paint_color_target_encoding fs = Ok (paint_color_target_encoding g)
  ∧ load_state_target_encoding fs = Ok (state_target_encoding g)
  ∧ load_CylindersUnique fs = Ok (CylindersUnique g)
  ∧ load_FuelUnique fs = Ok (FuelUnique g)
  ∧ load_TransmissionUnique fs = Ok (TransmissionUnique g)
  ∧ load_DriveUnique fs = Ok (DriveUnique g)
  ∧ load_SizeUnique fs = Ok (SizeUnique g).

(** The text [s] occurs in [banner]. *)
Definition contiene (s banner : string) : Prop :=
  ∃ pre post, banner = pre +:+ s +:+ post.

Arguments value : clear implicits.
Arguments artifacts : clear implicits.
Arguments files : clear implicits.
Arguments arranque : clear implicits.

(** ** A deployment, for the examples *)

Definition esquema_ej : list string :=
  ["odometer"; "age"; "manufacturer_encoded"; "paint_color_encoded";
   "state_encoded";
   "cylinders_4 cylinders"; "cylinders_6 cylinders"; "cylinders_8 cylinders";
   "cylinders_other";
   "fuel_gas"; "fuel_other";
   "transmission_manual"; "transmission_other";
   "drive_fwd"; "drive_rwd";
   "size_compact"; "size_full-size"; "size_mid-size"].

Definition tabla_manufacturer_ej : gmap string Q :=
  {[ "ford" := (1523075 # 100)%Q; "toyota" := (1498020 # 100)%Q ]}.
Definition tabla_paint_color_ej : gmap string Q :=
  {[ "white" := (1610350 # 100)%Q; "black" := (1702410 # 100)%Q ]}.
Definition tabla_state_ej : gmap string Q :=
  {[ "ca" := (1599900 # 100)%Q; "tx" := (1688015 # 100)%Q ]}.

Definition fs_ej : files Q unit := {|
  load_model := Ok tt;
  load_X_train_columns := Ok esquema_ej;
  load_manufacturer_target_encoding := Ok tabla_manufacturer_ej;
  load_paint_color_target_encoding := Ok tabla_paint_color_ej;
  load_state_target_encoding := Ok tabla_state_ej;
  load_CylindersUnique :=
    Ok ["10 cylinders"; "4 cylinders"; "6 cylinders"; "8 cylinders"; "other"];
  load_FuelUnique := Ok ["diesel"; "gas"; "other"];
  load_TransmissionUnique := Ok ["automatic"; "manual"; "other"];
  load_DriveUnique := Ok ["awd"; "fwd"; "rwd"];
  load_SizeUnique := Ok ["compact"; "full-size"; "mid-size"];
  load_ANO_ACTUAL := Ok 2024;
|}.

Definition g_ej : artifacts Q unit := {|
  final_model := tt;
  X_train_columns := esquema_ej;
  manufacturer_target_encoding := tabla_manufacturer_ej;
  paint_color_target_encoding := tabla_paint_color_ej;
  state_target_encoding := tabla_state_ej;
  CylindersUnique :=
    ["10 cylinders"; "4 cylinders"; "6 cylinders"; "8 cylinders"; "other"];
  FuelUnique := ["diesel"; "gas"; "other"];
  TransmissionUnique := ["automatic"; "manual"; "other"];
  DriveUnique := ["awd"; "fwd"; "rwd"];
  SizeUnique := ["compact"; "full-size"; "mid-size"];
  ANO_ACTUAL := 2024;
  ManufacturerUnique := keys tabla_manufacturer_ej;
  PaintColorUnique := keys tabla_paint_color_ej;
  StateUnique := keys tabla_state_ej;
|}.

(** The same directory without the reference-year file. *)
Definition fs_sin_ano : files Q unit := {|
  load_model := load_model fs_ej;
  load_X_train_columns := load_X_train_columns fs_ej;
  load_manufacturer_target_encoding := load_manufacturer_target_encoding fs_ej;
  load_paint_color_target_encoding := load_paint_color_target_encoding fs_ej;
  load_state_target_encoding := load_state_target_encoding fs_ej;
  load_CylindersUnique := load_CylindersUnique fs_ej;
  load_FuelUnique := load_FuelUnique fs_ej;
  load_TransmissionUnique := load_TransmissionUnique fs_ej;
  load_DriveUnique := load_DriveUnique fs_ej;
  load_SizeUnique := load_SizeUnique fs_ej;
  load_ANO_ACTUAL :=
    Raise (FileNotFoundError
             "[Errno 2] No such file or directory: 'ANO_ACTUAL.joblib'");
|}.

(** The same directory without the schema file. *)
Definition fs_sin_esquema : files Q unit := {|
  load_model := load_model fs_ej;
  load_X_train_columns :=
    Raise (FileNotFoundError
             "[Errno 2] No such file or directory: 'X_train_columns.joblib'");
  load_manufacturer_target_encoding := load_manufacturer_target_encoding fs_ej;
  load_paint_color_target_encoding := load_paint_color_target_encoding fs_ej;
  load_state_target_encoding := load_state_target_encoding fs_ej;
  load_CylindersUnique := load_CylindersUnique fs_ej;
  load_FuelUnique := load_FuelUnique fs_ej;
  load_TransmissionUnique := load_TransmissionUnique fs_ej;
  load_DriveUnique := load_DriveUnique fs_ej;
  load_SizeUnique := load_SizeUnique fs_ej;
  load_ANO_ACTUAL := load_ANO_ACTUAL fs_ej;
|}.

Definition os_ej : os_iface := {|
  os_path_abspath := λ p, "/app/src/" +:+ p;
  os_getcwd := "/app/src";
  os_path_join := λ a b, a +:+ "/" +:+ b;
|}.

(** ** Part 3: the form (lines 142-269) *)

(** [l[0]] *)
Definition lista_item0 {A : Type} (l : list A) : result A :=
  match l with
  | [] => Raise (OtherException "list index out of range")
  | x :: _ => Ok x
  end.

(** [a[0]] on the array [predict] returns. *)
Definition array_item0 {A : Type} (a : list A) : result A :=
  match a with
  | [] => Raise (OtherException "index 0 is out of bounds for axis 0 with size 0")
  | x :: _ => Ok x
  end.

(** [l.index(x)]: the position of the first occurrence of [x]; a
    [ValueError] when there is none (its text is that of a string without
    quotes or escapes). *)
Fixpoint lista_index (x : string) (l : list string) : result nat :=
  match l with
  | [] => Raise (OtherException ("'" +:+ x +:+ "' is not in list"))
  | y :: l' =>
      if decide (x = y) then Ok 0%nat
      else i ← lista_index x l'; mret (S i)
  end.

(** [preferido if preferido in opciones else opciones[0]]
    (lines 193, 202, 211, 220, 229). *)
Definition valor_por_defecto (preferido : string) (opciones : list string)
  : result string :=
  if decide (preferido ∈ opciones) then Ok preferido else lista_item0 opciones.

(** The [index=] argument of the widget: [opciones.index(default)]
    (lines 197, 206, 215, 224, 233). *)
Definition indice_por_defecto (preferido : string) (opciones : list string)
  : result nat :=
  default ← valor_por_defecto preferido opciones;
  lista_index default opciones.

(** The value each of the five widgets prefers as its initial choice. *)
Definition preferido (c : campo) : string :=
  match c with
  | Cylinders => "6 cylinders"
  | Fuel => "gas"
  | Transmission => "automatic"
  | Drive => "fwd"
  | Size => "mid-size"
  end.

(** The bounds of the two sliders (lines 148-163). *)
Definition odometer_min : Z := 0.
Definition odometer_max : Z := 300000.
Definition year_min : Z := 1980.

(** What the button handler puts on the page. *)
Inductive elemento : Type :=
| st_success (body : string)
| st_balloons
| st_markdown (body : string)
| st_error (body : string)
| st_info (body : string).

(** The double-quote character. *)
Definition comilla : string := String (Ascii.ascii_of_nat 34) "".

(** The f-string of lines 258-263, with the formatted price in place of
    [{precio_estimado:,.2f}]. *)
Definition plantilla_precio (precio_fmt : string) : string :=
  "
                <div style=" +:+ comilla +:+ "background-color: #e0f7fa; padding: 20px; border-radius: 10px; text-align: center;" +:+ comilla +:+ ">
                    <h2 style=" +:+ comilla +:+ "color: #00796b;" +:+ comilla +:+ ">El valor estimado del auto es:</h2>
                    <h1 style=" +:+ comilla +:+ "color: #004d40; font-size: 3em;" +:+ comilla +:+ ">$"
  +:+ precio_fmt +:+ "</h1>
                </div>
                ".

(** The handler of the button (lines 240-269).  [predict] is the model's
    batch prediction and [formato] the rendering [:,.2f] of a price; every
    exception raised inside the [try] is an [Exception] and is caught. *)
Definition boton {float Booster DMatrix precio : Type}
    (xgb_DMatrix : list (string * @value float) → result DMatrix)
    (predict : Booster → DMatrix → result (list precio))
    (formato : precio → string)
    (g : @artifacts float Booster)
    (odometer year : Z)
    (manufacturer paint_color state cylinders fuel transmission drive size : string)
  : list elemento :=
  match
    X_dmatrix ← codificar_datos_para_modelo xgb_DMatrix g odometer year
                  manufacturer paint_color state cylinders fuel transmission
                  drive size (X_train_columns g);
    precios ← predict (final_model g) X_dmatrix;
    array_item0 precios
  with
  | Ok precio_estimado =>
      [st_success "✅ Predicción completada";
       st_balloons;
       st_markdown (plantilla_precio (formato precio_estimado))]
  | Raise e =>
      [st_error ("Ocurrió un error al predecir: " +:+ exn_str e);
       st_info "Asegúrese de que los datos ingresados sean válidos y que las variables de codificación se hayan cargado correctamente."]
  end.

(** The options of the select box of a target-encoded field
    (lines 165-190). *)
Definition opciones_te {float Booster : Type} (g : @artifacts float Booster)
    (t : campo_te) : list string :=
  match t with
  | Manufacturer => ManufacturerUnique g
  | PaintColor => PaintColorUnique g
  | State => StateUnique g
  end.

(** [sep.join(l)], to state what [split] returns. *)
Fixpoint join (sep : string) (l : list string) : string :=
  match l with
  | [] => ""
  | x :: l' =>
      match l' with
      | [] => x
      | _ :: _ => x +:+ sep +:+ join sep l'
      end
  end.

(** ** More directories and a lower-casing, for the examples *)

(** The example directory with a truncated schema file. *)
Definition fs_esquema_corrupto : files Q unit := {|
  load_model := load_model fs_ej;
  load_X_train_columns := Raise (OtherException "Ran out of input");
  load_manufacturer_target_encoding := load_manufacturer_target_encoding fs_ej;
  load_paint_color_target_encoding := load_paint_color_target_encoding fs_ej;
  load_state_target_encoding := load_state_target_encoding fs_ej;
  load_CylindersUnique := load_CylindersUnique fs_ej;
  load_FuelUnique := load_FuelUnique fs_ej;
  load_TransmissionUnique := load_TransmissionUnique fs_ej;
  load_DriveUnique := load_DriveUnique fs_ej;
  load_SizeUnique := load_SizeUnique fs_ej;
  load_ANO_ACTUAL := load_ANO_ACTUAL fs_ej;
|}.

(** The example directory without the schema file and without every file
    loaded after it. *)
Definition fs_solo_modelo : files Q unit := {|
  load_model := load_model fs_ej;
  load_X_train_columns := load_X_train_columns fs_sin_esquema;
  load_manufacturer_target_encoding :=
    Raise (FileNotFoundError
      "[Errno 2] No such file or directory: 'manufacturer_target_encoding.joblib'");
  load_paint_color_target_encoding :=
    Raise (FileNotFoundError
      "[Errno 2] No such file or directory: 'paint_color_target_encoding.joblib'");
  load_state_target_encoding :=
    Raise (FileNotFoundError
      "[Errno 2] No such file or directory: 'state_target_encoding.joblib'");
  load_CylindersUnique :=
    Raise (FileNotFoundError
      "[Errno 2] No such file or directory: 'CylindersUnique.joblib'");
  load_FuelUnique :=
    Raise (FileNotFoundError
      "[Errno 2] No such file or directory: 'FuelUnique.joblib'");
  load_TransmissionUnique :=
    Raise (FileNotFoundError
      "[Errno 2] No such file or directory: 'TransmissionUnique.joblib'");
  load_DriveUnique :=
    Raise (FileNotFoundError
      "[Errno 2] No such file or directory: 'DriveUnique.joblib'");
  load_SizeUnique :=
    Raise (FileNotFoundError
      "[Errno 2] No such file or directory: 'SizeUnique.joblib'");
  load_ANO_ACTUAL := load_ANO_ACTUAL fs_sin_ano;
|}.

(** [str.lower] on strings of ASCII characters. *)
Definition minuscula_ascii (a : Ascii.ascii) : Ascii.ascii :=
  let n := Ascii.nat_of_ascii a in
  if decide (65 ≤ n ≤ 90)%nat then Ascii.ascii_of_nat (n + 32) else a.

Fixpoint lower_ascii (s : string) : string :=
  match s with
  | EmptyString => EmptyString
  | String a s' => String (minuscula_ascii a) (lower_ascii s')
  end.

(** A constructor that accepts every frame and keeps it, for the examples:
    the case most favourable to the encoder returning. *)
Definition xgb_DMatrix_ej (X_nuevo : list (string * value Q))
  : result (list (string * value Q)) := Ok X_nuevo.

(** * Proofs *)

(** Two column names that differ in a literal part. *)
Ltac nombres_distintos :=
  let H := fresh in
  intros H; compute in H; congruence.

Section Encoder.
Context {float Booster : Type}.
Implicit Types (datos d : gmap string (value float)) (cols : list string).
Implicit Types (k f v w : string) (c : campo) (g : artifacts float Booster).

Lemma foldl_ceros_lookup cols d k :
  foldl (λ d col, <[col := VInt 0]> d) d cols !! k
  = if decide (k ∈ cols) then Some (VInt 0) else d !! k.
Proof.
  revert d. induction cols as [|c cols IH]; intros d.
  - rewrite decide_False; [done | apply not_elem_of_nil].
  - simpl. rewrite IH. destruct (decide (k ∈ cols)) as [Hin|Hin].
    + rewrite decide_True; [done | by right].
    + destruct (decide (k = c)) as [->|Hne].
      * rewrite decide_True; [by rewrite lookup_insert_eq | by left].
      * rewrite decide_False; [by rewrite lookup_insert_ne | ].
        intros [?|?]%elem_of_cons; done.
Qed.

Lemma dict_ceros_lookup cols k :
  dict_ceros (float:=float) cols !! k
  = if decide (k ∈ cols) then Some (VInt 0) else None.
Proof. unfold dict_ceros. by rewrite foldl_ceros_lookup, lookup_empty. Qed.

Lemma activar_ohe_ne f v d k :
  k ≠ f +:+ "_" +:+ v → activar_ohe f v d !! k = d !! k.
Proof.
  intros Hne. unfold activar_ohe. case_decide; [|done].
  by rewrite lookup_insert_ne.
Qed.

Lemma activar_ohe_eq f v d :
  activar_ohe f v d !! (f +:+ "_" +:+ v)
  = (λ _, VInt 1) <$> d !! (f +:+ "_" +:+ v).
Proof.
  unfold activar_ohe. case_decide as Hin.
  - rewrite lookup_insert_eq. by destruct Hin as [x ->].
  - apply eq_None_not_Some in Hin. by rewrite Hin.
Qed.

Lemma columna_inj c v w : columna c v = columna c w → v = w.
Proof. unfold columna. intros H. by do 2 apply (inj _) in H. Qed.

Lemma columna_campo c1 c2 v w : columna c1 v = columna c2 w → c1 = c2.
Proof. destruct c1, c2; first [done | nombres_distintos]. Qed.

Lemma datos_codificados_pasos g odometer year manufacturer paint_color state
    cylinders fuel transmission drive size cols :
  datos_codificados g odometer year manufacturer paint_color state
    cylinders fuel transmission drive size cols
  = pasos_ohe cylinders fuel transmission drive size
      (datos_numericos g odometer year manufacturer paint_color state cols).
Proof. reflexivity. Qed.

Lemma activar_ohe_lookup f v d k :
  activar_ohe f v d !! k
  = if decide (k = f +:+ "_" +:+ v) then (λ _, VInt 1) <$> d !! k else d !! k.
Proof.
  case_decide as Hk.
  - subst k. apply activar_ohe_eq.
  - by apply activar_ohe_ne.
Qed.

Lemma activar_lista_lookup (l : list (campo * string)) d k :
  activar_lista l d !! k
  = if decide (k ∈ (λ cv, columna cv.1 cv.2) <$> l)
    then (λ _, VInt 1) <$> d !! k
    else d !! k.
Proof.
  revert d. induction l as [|[c v] l IH]; intros d.
  - rewrite decide_False; [done | apply not_elem_of_nil].
  - unfold activar_lista in *. simpl. rewrite IH, activar_ohe_lookup.
    fold (columna c v).
    destruct (decide (k = columna c v)) as [->|Hne].
    + rewrite (decide_True (P:=_ ∈ _ :: _)) by left.
      case_decide; [|done]. by destruct (d !! columna c v).
    + case_decide as Hin.
      * rewrite decide_True; [done | by right].
      * rewrite decide_False; [done |].
        intros [?|?]%elem_of_cons; done.
Qed.

Lemma pasos_ohe_lista cylinders fuel transmission drive size d :
  pasos_ohe cylinders fuel transmission drive size d
  = activar_lista (activaciones cylinders fuel transmission drive size) d.
Proof.
  unfold pasos_ohe, activaciones, activar_lista, activa. simpl.
  by repeat case_decide.
Qed.

(** What the activations do to any key. *)
Lemma pasos_ohe_lookup cylinders fuel transmission drive size d k :
  pasos_ohe cylinders fuel transmission drive size d !! k
  = if decide (k ∈ columnas_activas cylinders fuel transmission drive size)
    then (λ _, VInt 1) <$> d !! k
    else d !! k.
Proof. rewrite pasos_ohe_lista. apply activar_lista_lookup. Qed.

Lemma elem_of_columnas_activas cylinders fuel transmission drive size k :
  k ∈ columnas_activas cylinders fuel transmission drive size
  ↔ ∃ c v, activa c cylinders fuel transmission drive size = Some v
           ∧ k = columna c v.
Proof.
  unfold columnas_activas, activaciones. rewrite list_elem_of_fmap. split.
  - intros [[c v] [-> Hin]]. apply list_elem_of_omap in Hin as (c' & _ & Hc').
    apply fmap_Some in Hc' as (v' & Hv' & [= -> ->]). by exists c', v'.
  - intros (c & v & Hact & ->). exists (c, v). split; [done |].
    apply list_elem_of_omap. exists c. split.
    + destruct c; set_solver.
    + by rewrite Hact.
Qed.

(** The numeric columns are none of the one-hot names. *)
Lemma columna_no_numerica c v : columna c v ∉ columnas_numericas.
Proof.
  unfold columnas_numericas. rewrite !elem_of_cons, elem_of_nil.
  destruct c; intros [H|[H|[H|[H|[H|[]]]]]]; revert H; nombres_distintos.
Qed.

Lemma datos_numericos_lookup g odometer year manufacturer paint_color state cols k :
  k ∉ columnas_numericas →
  datos_numericos g odometer year manufacturer paint_color state cols !! k
  = if decide (k ∈ cols) then Some (VInt 0) else None.
Proof.
  unfold columnas_numericas. rewrite !elem_of_cons, elem_of_nil. intros Hk.
  unfold datos_numericos.
  rewrite !lookup_insert_ne by (intros <-; tauto).
  apply dict_ceros_lookup.
Qed.

Lemma datos_numericos_is_Some g odometer year manufacturer paint_color state cols k :
  k ∈ cols →
  is_Some (datos_numericos g odometer year manufacturer paint_color state cols !! k).
Proof.
  intros Hk. unfold datos_numericos.
  rewrite !lookup_insert_is_Some'. repeat right.
  rewrite dict_ceros_lookup, decide_True by done. eauto.
Qed.

Lemma datos_lookup_no_numerica g odometer year manufacturer paint_color state
    cylinders fuel transmission drive size cols k :
  k ∉ columnas_numericas →
  datos_codificados g odometer year manufacturer paint_color state
    cylinders fuel transmission drive size cols !! k
  = if decide (k ∈ cols)
    then Some (VInt (if decide (k ∈ columnas_activas cylinders fuel
                                      transmission drive size)
                     then 1 else 0))
    else None.
Proof.
  intros Hk.
  rewrite datos_codificados_pasos, pasos_ohe_lookup, datos_numericos_lookup by done.
  by repeat case_decide.
Qed.

Lemma datos_lookup_numerica g odometer year manufacturer paint_color state
    cylinders fuel transmission drive size cols k :
  k ∈ columnas_numericas →
  datos_codificados g odometer year manufacturer paint_color state
    cylinders fuel transmission drive size cols !! k
  = datos_numericos g odometer year manufacturer paint_color state cols !! k.
Proof.
  intros Hk. rewrite datos_codificados_pasos, pasos_ohe_lookup.
  rewrite decide_False; [done |].
  intros (c & v & _ & ->)%elem_of_columnas_activas.
  by apply (columna_no_numerica c v).
Qed.

Lemma datos_is_Some g odometer year manufacturer paint_color state
    cylinders fuel transmission drive size cols k :
  k ∈ cols →
  is_Some (datos_codificados g odometer year manufacturer paint_color state
             cylinders fuel transmission drive size cols !! k).
Proof.
  intros Hk. rewrite datos_codificados_pasos, pasos_ohe_lookup.
  pose proof (datos_numericos_is_Some g odometer year manufacturer
                paint_color state cols k Hk) as [x Hx].
  rewrite Hx. case_decide; simpl; eauto.
Qed.

(** The selection of labels succeeds as soon as every label is a key, and
    then reads each label's cell off the dictionary, in the labels' order. *)
Lemma frame_getitem_Ok d cols :
  (∀ k, k ∈ cols → is_Some (d !! k)) →
  ∃ X, frame_getitem d cols = Ok X
       ∧ X.*1 = cols
       ∧ ∀ i k, cols !! i = Some k →
                ∃ x, d !! k = Some x ∧ X !! i = Some (k, x).
Proof.
  induction cols as [|col cols IH]; intros Hin.
  - exists []. by repeat split.
  - destruct (Hin col) as [x Hx]; [by left |].
    destruct IH as (X & HX & Hfst & Hcells).
    { intros k Hk. apply Hin. by right. }
    exists ((col, x) :: X). simpl. rewrite Hx, HX. repeat split.
    + f_equal. exact Hfst.
    + intros [|i] k Hi; simpl in *.
      * injection Hi as <-. by exists x.
      * by apply Hcells.
Qed.

(** The selection of line 120 returns, and the frame is the dictionary
    read along the schema. *)
Lemma X_nuevo_fila g odometer year manufacturer paint_color state
    cylinders fuel transmission drive size cols :
  ∃ X, X_nuevo g odometer year manufacturer paint_color
         state cylinders fuel transmission drive size cols
       = Ok X
       ∧ X.*1 = cols
       ∧ ∀ i k, cols !! i = Some k →
           ∃ x, datos_codificados g odometer year manufacturer paint_color
                  state cylinders fuel transmission drive size cols !! k
                = Some x
                ∧ X !! i = Some (k, x).
Proof.
  destruct (frame_getitem_Ok
              (datos_codificados g odometer year manufacturer paint_color
                 state cylinders fuel transmission drive size cols) cols)
    as (X & HX & Hfst & Hcells).
  { intros k Hk. by apply datos_is_Some. }
  exists X. unfold X_nuevo. rewrite HX. by repeat split.
Qed.

(** A cell of the frame, from the cell of the dictionary. *)
Lemma X_nuevo_celda g odometer year manufacturer paint_color state
    cylinders fuel transmission drive size cols X i k x :
  X_nuevo g odometer year manufacturer paint_color
    state cylinders fuel transmission drive size cols = Ok X →
  cols !! i = Some k →
  datos_codificados g odometer year manufacturer paint_color
    state cylinders fuel transmission drive size cols !! k = Some x →
  X !! i = Some (k, x).
Proof.
  intros HX Hi Hk.
  destruct (X_nuevo_fila g odometer year manufacturer paint_color state
              cylinders fuel transmission drive size cols)
    as (X' & HX' & _ & Hcells).
  rewrite HX in HX'. injection HX' as <-.
  destruct (Hcells i k Hi) as (x' & Hx' & Hrow). congruence.
Qed.

Lemma activa_seleccion c cylinders fuel transmission drive size :
  activa c cylinders fuel transmission drive size
  = if decide (base c = Some (seleccion c cylinders fuel transmission drive size))
    then None
    else Some (seleccion c cylinders fuel transmission drive size).
Proof.
  destruct c; simpl; try done.
  - repeat case_decide; naive_solver.
  - repeat case_decide; naive_solver.
Qed.

(** The cell of a one-hot column, by field and value. *)
Lemma datos_lookup_columna g odometer year manufacturer paint_color state
    cylinders fuel transmission drive size cols c w :
  datos_codificados g odometer year manufacturer paint_color state
    cylinders fuel transmission drive size cols !! columna c w
  = if decide (columna c w ∈ cols)
    then Some (VInt (if decide (activa c cylinders fuel transmission drive size
                                = Some w)
                     then 1 else 0))
    else None.
Proof.
  rewrite datos_lookup_no_numerica by apply columna_no_numerica.
  case_decide; [|done]. do 2 f_equal.
  apply decide_ext. rewrite elem_of_columnas_activas. split.
  - intros (c' & v & Hact & Heq).
    pose proof (columna_campo _ _ _ _ Heq) as <-.
    by apply columna_inj in Heq as ->.
  - intros Hact. by exists c, w.
Qed.

(** The cell of a target-encoded column. *)
Lemma datos_lookup_te g odometer year manufacturer paint_color state
    cylinders fuel transmission drive size cols (t : campo_te) :
  datos_codificados g odometer year manufacturer paint_color state
    cylinders fuel transmission drive size cols !! columna_te t
  = Some (default (VInt 0)
            (VFloat <$> tabla_te g t !! valor_te t manufacturer paint_color state)).
Proof.
  rewrite datos_lookup_numerica.
  - unfold datos_numericos. destruct t; simpl; by simplify_map_eq.
  - unfold columnas_numericas. destruct t; simpl; set_solver.
Qed.

Lemma datos_lookup_age g odometer year manufacturer paint_color state
    cylinders fuel transmission drive size cols :
  datos_codificados g odometer year manufacturer paint_color state
    cylinders fuel transmission drive size cols !! "age"
  = Some (VInt (ANO_ACTUAL g - year)).
Proof.
  rewrite datos_lookup_numerica.
  - unfold datos_numericos. by simplify_map_eq.
  - unfold columnas_numericas. set_solver.
Qed.

End Encoder.

(** ** The encoder: theorems *)

Section EncoderTheorems.
Context {float Booster : Type}.
Implicit Types (cols : list string) (k v w : string) (c : campo).
Implicit Types (t : campo_te) (g : artifacts float Booster).

(** C1: for every input tuple the frame the encoder builds and hands to
    [xgb.DMatrix] (lines 119-123) has exactly the labels of the schema it
    was given, in the schema's order, whatever the category values are;
    the selection of the labels never raises, and an object the body
    returns is built from that frame. *)
Theorem codificar_columnas_del_esquema g odometer year manufacturer paint_color
    state cylinders fuel transmission drive size cols :
  ∃ X, X_nuevo g odometer year manufacturer paint_color
         state cylinders fuel transmission drive size cols
       = Ok X
       ∧ X.*1 = cols
       ∧ ∀ (DMatrix : Type)
           (xgb_DMatrix : list (string * value float) → result DMatrix) D,
           codificar_cuerpo xgb_DMatrix g odometer year manufacturer
             paint_color state cylinders fuel transmission drive size cols
           = Ok D →
           xgb_DMatrix X = Ok D.
Proof.
  destruct (X_nuevo_fila g odometer year manufacturer paint_color state
              cylinders fuel transmission drive size cols)
    as (X & HX & Hfst & _).
  exists X. split; [done |]. split; [done |].
  intros DMatrix xgb_DMatrix D. unfold codificar_cuerpo. rewrite HX. simpl.
  by destruct (xgb_DMatrix X).
Qed.

(** C2: when the value of a target-encoded field (manufacturer, paint
    colour, state) is a key of that field's table, the encoder stores the
    table's number, unchanged, under the field's column: in the dictionary
    [datos], and at every position with that label of the frame it hands
    to [xgb.DMatrix]. *)
Theorem codificar_te_en_tabla g odometer year manufacturer paint_color
    state cylinders fuel transmission drive size cols t x :
  tabla_te g t !! valor_te t manufacturer paint_color state = Some x →
  datos_codificados g odometer year manufacturer paint_color state
    cylinders fuel transmission drive size cols !! columna_te t
  = Some (VFloat x)
  ∧ ∃ X, X_nuevo g odometer year manufacturer paint_color
           state cylinders fuel transmission drive size cols
         = Ok X
         ∧ ∀ i, cols !! i = Some (columna_te t) →
                X !! i = Some (columna_te t, VFloat x).
Proof.
  intros Htab.
  assert (datos_codificados g odometer year manufacturer paint_color state
            cylinders fuel transmission drive size cols !! columna_te t
          = Some (VFloat x)) as Hd.
  { by rewrite datos_lookup_te, Htab. }
  split; [done |].
  destruct (X_nuevo_fila g odometer year manufacturer paint_color state
              cylinders fuel transmission drive size cols)
    as (X & HX & _ & _).
  exists X. split; [done |]. intros i Hi.
  by eapply X_nuevo_celda.
Qed.

(** C6: when the value of a target-encoded field is not a key of that
    field's table, the lookup raises nothing and the field's column holds
    the integer 0, in the dictionary [datos] and at every position with
    that label of the frame handed to [xgb.DMatrix]. *)
Theorem codificar_te_desconocido g odometer year manufacturer paint_color
    state cylinders fuel transmission drive size cols t :
  tabla_te g t !! valor_te t manufacturer paint_color state = None →
  datos_codificados g odometer year manufacturer paint_color state
    cylinders fuel transmission drive size cols !! columna_te t
  = Some (VInt 0)
  ∧ ∃ X, X_nuevo g odometer year manufacturer paint_color
           state cylinders fuel transmission drive size cols
         = Ok X
         ∧ ∀ i, cols !! i = Some (columna_te t) →
                X !! i = Some (columna_te t, VInt 0).
Proof.
  intros Htab.
  assert (datos_codificados g odometer year manufacturer paint_color state
            cylinders fuel transmission drive size cols !! columna_te t
          = Some (VInt 0)) as Hd.
  { by rewrite datos_lookup_te, Htab. }
  split; [done |].
  destruct (X_nuevo_fila g odometer year manufacturer paint_color state
              cylinders fuel transmission drive size cols)
    as (X & HX & _ & _).
  exists X. split; [done |]. intros i Hi.
  by eapply X_nuevo_celda.
Qed.


(** C3, amended: for a one-hot field [c] whose value [v] is not the
    field's base value, the frame handed to [xgb.DMatrix] is built without
    an error and, when the column [c_v] is a label of the schema, it holds
    1 at every position labelled [c_v] (there is one, and only one when
    the schema repeats no label) and 0 at every position labelled [c_w]
    for another value [w]; when [c_v] is not a label of the schema, it
    holds 0 at every position labelled [c_w], for every [w]. *)
Theorem ohe_columna_en_esquema g odometer year manufacturer paint_color
    state cylinders fuel transmission drive size cols c v :
  seleccion c cylinders fuel transmission drive size = v →
  base c ≠ Some v →
  ∃ X, X_nuevo g odometer year manufacturer paint_color
         state cylinders fuel transmission drive size cols
       = Ok X
       ∧ (columna c v ∈ cols →
          (∃ i, X !! i = Some (columna c v, VInt 1))
          ∧ (∀ i, cols !! i = Some (columna c v) →
                  X !! i = Some (columna c v, VInt 1))
          ∧ (∀ i w, w ≠ v → cols !! i = Some (columna c w) →
                    X !! i = Some (columna c w, VInt 0))
          ∧ (NoDup cols →
             ∀ i j, X !! i = Some (columna c v, VInt 1) →
                    X !! j = Some (columna c v, VInt 1) → i = j))
       ∧ (columna c v ∉ cols →
          ∀ i w, cols !! i = Some (columna c w) →
                 X !! i = Some (columna c w, VInt 0)).
Proof.
  intros Hsel Hbase.
  assert (activa c cylinders fuel transmission drive size = Some v) as Hact.
  { rewrite activa_seleccion, Hsel. by rewrite decide_False. }
  destruct (X_nuevo_fila g odometer year manufacturer paint_color state
              cylinders fuel transmission drive size cols)
    as (X & HX & Hfst & _).
  exists X. split; [done |]. split.
  - intros Hin.
    assert (∀ i, cols !! i = Some (columna c v) →
                 X !! i = Some (columna c v, VInt 1)) as Huno.
    { intros i Hi. eapply X_nuevo_celda; [done.. |].
      rewrite datos_lookup_columna, decide_True by done.
      by rewrite decide_True. }
    split; [|split; [done |split]].
    + apply list_elem_of_lookup in Hin as [i Hi]. exists i. by apply Huno.
    + intros i w Hw Hi. eapply X_nuevo_celda; [done.. |].
      rewrite datos_lookup_columna, decide_True
        by (apply list_elem_of_lookup; by exists i).
      rewrite decide_False; [done |]. rewrite Hact. congruence.
    + intros Hnodup i j Hi Hj.
      apply (NoDup_lookup cols i j (columna c v)); [done | |].
      * rewrite <- Hfst, list_lookup_fmap, Hi. done.
      * rewrite <- Hfst, list_lookup_fmap, Hj. done.
  - intros Hout i w Hi.
    assert (columna c w ∈ cols) as Hin
      by (apply list_elem_of_lookup; by exists i).
    eapply X_nuevo_celda; [done.. |].
    rewrite datos_lookup_columna, decide_True by done.
    rewrite decide_False; [done |]. rewrite Hact.
    intros [= <-]. done.
Qed.

(** C4: in the frame handed to [xgb.DMatrix], with
    [transmission = 'automatic'] every column [transmission_w] is 0, with
    [drive = 'awd'] every column [drive_w] is 0, and more generally
    choosing the base value of a field leaves at 0 every column that is
    not numeric and is not the column named by one of the other four
    fields. *)
Theorem base_no_activa g odometer year manufacturer paint_color
    state cylinders fuel transmission drive size cols :
  ∃ X, X_nuevo g odometer year manufacturer paint_color
         state cylinders fuel transmission drive size cols
       = Ok X
       ∧ (transmission = "automatic" →
          ∀ i w, cols !! i = Some (columna Transmission w) →
                 X !! i = Some (columna Transmission w, VInt 0))
       ∧ (drive = "awd" →
          ∀ i w, cols !! i = Some (columna Drive w) →
                 X !! i = Some (columna Drive w, VInt 0))
       ∧ (∀ c, base c = Some (seleccion c cylinders fuel transmission drive size) →
          ∀ i k, cols !! i = Some k →
                 k ∉ columnas_numericas →
                 (∀ c', c' ≠ c →
                    k ≠ columna c' (seleccion c' cylinders fuel transmission
                                      drive size)) →
                 X !! i = Some (k, VInt 0)).
Proof.
  destruct (X_nuevo_fila g odometer year manufacturer paint_color state
              cylinders fuel transmission drive size cols)
    as (X & HX & _ & _).
  exists X. repeat split; [done | | |].
  - intros -> i w Hi. eapply X_nuevo_celda; [done.. |].
    rewrite datos_lookup_columna, decide_True
      by (apply list_elem_of_lookup; by exists i).
    by rewrite decide_False.
  - intros -> i w Hi. eapply X_nuevo_celda; [done.. |].
    rewrite datos_lookup_columna, decide_True
      by (apply list_elem_of_lookup; by exists i).
    by rewrite decide_False.
  - intros c Hbase i k Hi Hnum Hotros. eapply X_nuevo_celda; [done.. |].
    rewrite datos_lookup_no_numerica, decide_True
      by (done || apply list_elem_of_lookup; by exists i).
    rewrite decide_False; [done |].
    intros (c' & v & Hact & ->)%elem_of_columnas_activas.
    rewrite activa_seleccion in Hact.
    case_decide as Hb; [done |]. injection Hact as <-.
    apply (Hotros c'); [congruence | done].
Qed.

(** C8: every position of the frame handed to [xgb.DMatrix] whose label
    is none of [odometer], [age], the three target-encoded columns and the
    columns named by the calls to [activar_ohe] (at most five: one per
    field, none for a base value) holds 0. *)
Theorem resto_en_cero g odometer year manufacturer paint_color
    state cylinders fuel transmission drive size cols i k :
  cols !! i = Some k →
  k ∉ columnas_numericas →
  k ∉ columnas_activas cylinders fuel transmission drive size →
  (length (columnas_activas cylinders fuel transmission drive size) ≤ 5)%nat
  ∧ ∃ X, X_nuevo g odometer year manufacturer paint_color
           state cylinders fuel transmission drive size cols
         = Ok X
         ∧ X !! i = Some (k, VInt 0).
Proof.
  intros Hi Hnum Hohe. split.
  { unfold columnas_activas, activaciones, activa. rewrite length_fmap. simpl.
    repeat case_decide; simpl; lia. }
  destruct (X_nuevo_fila g odometer year manufacturer paint_color state
              cylinders fuel transmission drive size cols)
    as (X & HX & _ & _).
  exists X. split; [done |]. eapply X_nuevo_celda; [done.. |].
  rewrite datos_lookup_no_numerica, decide_True
    by (done || apply list_elem_of_lookup; by exists i).
  by rewrite decide_False.
Qed.

(** C9: the steps of the encoder up to the frame raise for no combination
    of raw values, and unknown values leave 0 in the columns they would
    have fed; but the call itself never returns: when [xgb.DMatrix]
    refuses the frame its exception leaves the call, and when it accepts
    the frame the pickling done by [st.cache_data] raises. *)
Theorem codificar_siempre_lanza {DMatrix : Type}
    (xgb_DMatrix : list (string * value float) → result DMatrix)
    g odometer year manufacturer paint_color
    state cylinders fuel transmission drive size cols :
  ∃ X, X_nuevo g odometer year manufacturer paint_color
         state cylinders fuel transmission drive size cols
       = Ok X
       ∧ (∀ t, tabla_te g t !! valor_te t manufacturer paint_color state = None →
               ∀ i, cols !! i = Some (columna_te t) →
                    X !! i = Some (columna_te t, VInt 0))
       ∧ (∀ c, columna c (seleccion c cylinders fuel transmission drive size)
               ∉ cols →
               ∀ i w, cols !! i = Some (columna c w) →
                      X !! i = Some (columna c w, VInt 0))
       ∧ codificar_datos_para_modelo xgb_DMatrix g odometer year manufacturer
           paint_color state cylinders fuel transmission drive size cols
         = match xgb_DMatrix X with
           | Ok _ => Raise error_pickle
           | Raise e => Raise e
           end.
Proof.
  destruct (X_nuevo_fila g odometer year manufacturer paint_color state
              cylinders fuel transmission drive size cols)
    as (X & HX & _ & _).
  exists X. split; [done |]. split; [|split].
  - intros t Htab i Hi. eapply X_nuevo_celda; [done.. |].
    by rewrite datos_lookup_te, Htab.
  - intros c Hout i w Hi.
    assert (columna c w ∈ cols) as Hin
      by (apply list_elem_of_lookup; by exists i).
    eapply X_nuevo_celda; [done.. |].
    rewrite datos_lookup_columna, decide_True by done.
    rewrite decide_False; [done |].
    rewrite activa_seleccion. case_decide; [done |].
    intros [= <-]. done.
  - unfold codificar_datos_para_modelo, codificar_cuerpo, st_cache_data.
    rewrite HX. simpl. by destruct (xgb_DMatrix X).
Qed.

End EncoderTheorems.

(** ** The loader *)

Section Loader.
Context {float Booster : Type}.
Implicit Types (fs : files float Booster) (g : artifacts float Booster).
Implicit Types (os : os_iface) (e : exn).

Lemma app_asociativa (s1 s2 s3 : string) :
  (s1 +:+ s2) +:+ s3 = s1 +:+ s2 +:+ s3.
Proof.
  induction s1 as [|a s1 IH]; [done |].
  change (String a ((s1 +:+ s2) +:+ s3) = String a (s1 +:+ s2 +:+ s3)).
  by rewrite IH.
Qed.

(** [split] never returns the empty list, so the index [-1] of line 55
    always finds a piece. *)
Lemma split_go_no_vacia (sep : string) (skip : nat) (cur s : string) :
  split_go sep skip cur s ≠ [].
Proof.
  revert skip cur. induction s as [|a s IH]; intros skip cur.
  - discriminate.
  - destruct skip as [|n]; [|apply IH].
    change (split_go sep 0 cur (String a s))
      with (if String.prefix sep (String a s)
            then cur :: split_go sep (String.length sep - 1) "" s
            else split_go sep 0 (cur +:+ String a "") s).
    destruct (String.prefix sep (String a s)); [discriminate | apply IH].
Qed.

Lemma ultimo_split (sep s : string) : last (split sep s) = Some (ultimo (split sep s)).
Proof.
  unfold ultimo, split.
  pose proof (split_go_no_vacia sep 0 "" s) as Hne.
  destruct (last (split_go sep 0 "" s)) as [x|] eqn:Hlast; [done |].
  by apply last_None in Hlast.
Qed.

(** The body of the [try] raises the exception of the first of the ten
    loads that fails, and otherwise binds the globals to what was loaded,
    with the reference year read or defaulted. *)
Lemma cargar_resultado fs :
  match primera_falla fs with
  | Some e => cargar fs = Raise e
  | None =>
      ∃ g, cargar fs = Ok g
           ∧ cargados fs g
           ∧ ANO_ACTUAL g = try_except (load_ANO_ACTUAL fs) 2024
  end.
Proof.
  destruct fs as [m co tm tp ts cy fu tr dr sz an].
  unfold primera_falla, cargar, cargados. simpl.
  destruct m; [|done]. destruct co; [|done]. destruct tm; [|done].
  destruct tp; [|done]. destruct ts; [|done]. destruct cy; [|done].
  destruct fu; [|done]. destruct tr; [|done]. destruct dr; [|done].
  destruct sz; [|done].
  simpl. eexists. split; [done |]. by repeat split.
Qed.

Lemma banner_archivo_contiene os e : contiene (exn_str e) (banner_archivo os e).
Proof.
  unfold contiene, banner_archivo.
  exists ("
        Error: No se pudo cargar un archivo necesario. 
        Asegúrate de que el modelo y TODOS los archivos .joblib se encuentren 
        en las ubicaciones correctas.

        - Modelo esperado: " +:+ os_path_abspath os MODEL_PATH +:+ "
        - Archivos .joblib esperados: "
    +:+ os_path_join os (os_getcwd os) (ultimo (split ": " (exn_str e))) +:+ "
        
        Falta: "), "
    ".
  rewrite !app_asociativa. reflexivity.
Qed.

Lemma banner_modelo_contiene e : contiene (exn_str e) (banner_modelo e).
Proof.
  unfold contiene, banner_modelo.
  exists ("Error al cargar el modelo XGBoost desde " +:+ MODEL_PATH +:+ ": "), "".
  rewrite !app_asociativa. do 3 f_equal.
  generalize (exn_str e) as s. induction s as [|a s IH]; [done |].
  change (String a s = String a (s +:+ "")). by rewrite <- IH.
Qed.

(** C5, amended: part 1 goes on to the form only when each of the ten
    loads outside the inner [try] returned, and then the globals hold what
    they returned; when the first of them to fail raises
    [FileNotFoundError] or [XGBoostError], part 1 shows a banner that
    contains the exception's text and stops. *)
Theorem parte1_falla_requerida os fs :
  (∀ g, parte1 os fs = Continua g → primera_falla fs = None ∧ cargados fs g)
  ∧ (∀ s, primera_falla fs = Some (FileNotFoundError s) →
          ∃ banner, parte1 os fs = Detenido banner ∧ contiene s banner)
  ∧ (∀ s, primera_falla fs = Some (XGBoostError s) →
          ∃ banner, parte1 os fs = Detenido banner ∧ contiene s banner).
Proof.
  pose proof (cargar_resultado fs) as Hres. unfold parte1.
  split; [|split].
  - intros g Hg. destruct (primera_falla fs) as [e|].
    + rewrite Hres in Hg. destruct e; discriminate Hg.
    + destruct Hres as (g' & Hg' & Hc & _). rewrite Hg' in Hg.
      injection Hg as <-. done.
  - intros s Hs. rewrite Hs in Hres. rewrite Hres.
    eexists. split; [reflexivity |].
    apply (banner_archivo_contiene os (FileNotFoundError s)).
  - intros s Hs. rewrite Hs in Hres. rewrite Hres.
    eexists. split; [reflexivity |].
    apply (banner_modelo_contiene (XGBoostError s)).
Qed.

(** C10: when the ten loads before it returned and the load of the
    reference year raises, whatever the exception, part 1 shows nothing,
    does not stop, and goes on with [ANO_ACTUAL = 2024] and the other
    globals as loaded. *)
Theorem ano_actual_por_defecto os fs e :
  primera_falla fs = None →
  load_ANO_ACTUAL fs = Raise e →
  ∃ g, parte1 os fs = Continua g ∧ ANO_ACTUAL g = 2024 ∧ cargados fs g.
Proof.
  intros Hreq Hano.
  pose proof (cargar_resultado fs) as Hres. rewrite Hreq in Hres.
  destruct Hres as (g & Hg & Hc & Hyear).
  exists g. unfold parte1. rewrite Hg. split; [reflexivity |]. split; [|exact Hc].
  rewrite Hyear, Hano. reflexivity.
Qed.

End Loader.

(** ** The statements at the example deployment *)

(** The worked example of the form's defaults: a 2019 car read in 2024.
    The frame is built; the call raises all the same. *)
Example codificar_ejemplo :
  X_nuevo g_ej 50000 2019 "ford" "white" "ca"
    "6 cylinders" "gas" "automatic" "fwd" "mid-size" (X_train_columns g_ej)
  = Ok [("odometer", VInt 50000); ("age", VInt 5);
        ("manufacturer_encoded", VFloat (1523075 # 100)%Q);
        ("paint_color_encoded", VFloat (1610350 # 100)%Q);
        ("state_encoded", VFloat (1599900 # 100)%Q);
        ("cylinders_4 cylinders", VInt 0); ("cylinders_6 cylinders", VInt 1);
        ("cylinders_8 cylinders", VInt 0); ("cylinders_other", VInt 0);
        ("fuel_gas", VInt 1); ("fuel_other", VInt 0);
        ("transmission_manual", VInt 0); ("transmission_other", VInt 0);
        ("drive_fwd", VInt 1); ("drive_rwd", VInt 0);
        ("size_compact", VInt 0); ("size_full-size", VInt 0);
        ("size_mid-size", VInt 1)]
  ∧ codificar_datos_para_modelo xgb_DMatrix_ej g_ej 50000 2019 "ford" "white"
      "ca" "6 cylinders" "gas" "automatic" "fwd" "mid-size"
      (X_train_columns g_ej)
    = Raise error_pickle.
Proof. split; vm_compute; reflexivity. Qed.

(** A year past the reference year gives a negative age. *)
Example codificar_age_negativa :
  datos_codificados g_ej 50000 2030 "ford" "white" "ca"
    "6 cylinders" "gas" "automatic" "fwd" "mid-size" (X_train_columns g_ej)
    !! "age"
  = Some (VInt (-6)).
Proof. vm_compute. reflexivity. Qed.

(** The example directory loads into the example globals. *)
Example parte1_ejemplo : parte1 os_ej fs_ej = Continua g_ej.
Proof. reflexivity. Qed.

(** C2 at the example: ["ford"] is a key of the manufacturer table and its
    number is what the row holds at position 2. *)
Lemma codificar_te_en_tabla_witness :
  tabla_te g_ej Manufacturer !! valor_te Manufacturer "ford" "white" "ca"
  = Some (1523075 # 100)%Q
  ∧ ∃ X, X_nuevo g_ej 50000 2019 "ford" "white" "ca"
           "6 cylinders" "gas" "automatic" "fwd" "mid-size" (X_train_columns g_ej)
         = Ok X
         ∧ X !! 2%nat = Some ("manufacturer_encoded", VFloat (1523075 # 100)%Q).
Proof.
  split; [vm_compute; reflexivity |].
  destruct (codificar_te_en_tabla g_ej 50000 2019 "ford" "white" "ca"
              "6 cylinders" "gas" "automatic" "fwd" "mid-size"
              (X_train_columns g_ej) Manufacturer (1523075 # 100)%Q)
    as [_ (X & HX & Hcelda)]; [vm_compute; reflexivity |].
  exists X. split; [exact HX |]. apply Hcelda. reflexivity.
Defined.

(** C6 at the example: ["zzz_unknown"] is no key of the manufacturer
    table and the row holds 0 at position 2. *)
Lemma codificar_te_desconocido_witness :
  tabla_te g_ej Manufacturer !! valor_te Manufacturer "zzz_unknown" "white" "ca"
  = None
  ∧ ∃ X, X_nuevo g_ej 50000 2019 "zzz_unknown" "white" "ca"
           "6 cylinders" "gas" "automatic" "fwd" "mid-size" (X_train_columns g_ej)
         = Ok X
         ∧ X !! 2%nat = Some ("manufacturer_encoded", VInt 0).
Proof.
  split; [vm_compute; reflexivity |].
  destruct (codificar_te_desconocido g_ej 50000 2019 "zzz_unknown" "white" "ca"
              "6 cylinders" "gas" "automatic" "fwd" "mid-size"
              (X_train_columns g_ej) Manufacturer)
    as [_ (X & HX & Hcelda)]; [vm_compute; reflexivity |].
  exists X. split; [exact HX |]. apply Hcelda. reflexivity.
Defined.

(** C3 as written fails at the example: ["10 cylinders"] is in the
    cylinders list and is no base value, the schema has no column
    [cylinders_10 cylinders], and the row has no such column set to 1. *)
Lemma ohe_valor_sin_columna :
  "10 cylinders" ∈ lista g_ej Cylinders
  ∧ base Cylinders ≠ Some "10 cylinders"
  ∧ ∃ X, X_nuevo g_ej 50000 2019 "ford" "white" "ca"
           "10 cylinders" "gas" "manual" "fwd" "mid-size" (X_train_columns g_ej)
         = Ok X
         ∧ ¬ ∃ i, X !! i = Some (columna Cylinders "10 cylinders", VInt 1).
Proof.
  split; [compute_done |]. split; [discriminate |].
  eexists. split; [vm_compute; reflexivity |].
  intros [i Hi]. apply list_elem_of_lookup_2 in Hi.
  change (columna Cylinders "10 cylinders") with "cylinders_10 cylinders" in Hi.
  repeat (apply elem_of_cons in Hi as [Hi|Hi]; [discriminate Hi |]).
  by apply elem_of_nil in Hi.
Qed.

(** C3, amended, at the example: ["6 cylinders"] has its column in the
    schema, at position 6, and that position holds 1. *)
Lemma ohe_columna_en_esquema_witness :
  seleccion Cylinders "6 cylinders" "gas" "automatic" "fwd" "mid-size"
  = "6 cylinders"
  ∧ base Cylinders ≠ Some "6 cylinders"
  ∧ ∃ X, X_nuevo g_ej 50000 2019 "ford" "white" "ca"
           "6 cylinders" "gas" "automatic" "fwd" "mid-size" (X_train_columns g_ej)
         = Ok X
         ∧ X !! 6%nat = Some ("cylinders_6 cylinders", VInt 1)
         ∧ X !! 5%nat = Some ("cylinders_4 cylinders", VInt 0).
Proof.
  split; [reflexivity |]. split; [discriminate |].
  destruct (ohe_columna_en_esquema g_ej 50000 2019 "ford" "white" "ca"
              "6 cylinders" "gas" "automatic" "fwd" "mid-size"
              (X_train_columns g_ej) Cylinders "6 cylinders")
    as (X & HX & Hen & _); [reflexivity | discriminate |].
  destruct Hen as (_ & Huno & Hcero & _); [compute_done |].
  exists X. split; [exact HX |]. split.
  - apply Huno. reflexivity.
  - apply (Hcero 5%nat "4 cylinders"); [discriminate | reflexivity].
Defined.

(** C4 at the example: with both base values chosen, no [transmission_*]
    and no [drive_*] position of the row holds anything but 0. *)
Lemma base_no_activa_witness :
  ∃ X, X_nuevo g_ej 50000 2019 "ford" "white" "ca"
         "6 cylinders" "gas" "automatic" "awd" "mid-size" (X_train_columns g_ej)
       = Ok X
       ∧ X !! 11%nat = Some ("transmission_manual", VInt 0)
       ∧ X !! 12%nat = Some ("transmission_other", VInt 0)
       ∧ X !! 13%nat = Some ("drive_fwd", VInt 0)
       ∧ X !! 14%nat = Some ("drive_rwd", VInt 0).
Proof.
  destruct (base_no_activa g_ej 50000 2019 "ford" "white" "ca"
              "6 cylinders" "gas" "automatic" "awd" "mid-size"
              (X_train_columns g_ej))
    as (X & HX & Htrans & Hdrive & _).
  exists X. split; [exact HX |].
  split; [apply (Htrans eq_refl 11%nat "manual"); reflexivity |].
  split; [apply (Htrans eq_refl 12%nat "other"); reflexivity |].
  split; [apply (Hdrive eq_refl 13%nat "fwd"); reflexivity |].
  apply (Hdrive eq_refl 14%nat "rwd"); reflexivity.
Defined.

(** C8 at the example: [size_compact], at position 15, is neither numeric
    nor named by a call to [activar_ohe], and holds 0. *)
Lemma resto_en_cero_witness :
  X_train_columns g_ej !! 15%nat = Some "size_compact"
  ∧ ("size_compact" ∉ columnas_numericas)
  ∧ ("size_compact" ∉ columnas_activas "6 cylinders" "gas" "automatic" "fwd"
                        "mid-size")
  ∧ ∃ X, X_nuevo g_ej 50000 2019 "ford" "white" "ca"
           "6 cylinders" "gas" "automatic" "fwd" "mid-size" (X_train_columns g_ej)
         = Ok X
         ∧ X !! 15%nat = Some ("size_compact", VInt 0).
Proof.
  split; [reflexivity |]. split; [compute_done |]. split; [compute_done |].
  apply (resto_en_cero (float:=Q) (Booster:=unit));
    [reflexivity | compute_done | compute_done].
Defined.


(** C5 as written fails at the example: the reference-year file is
    missing, its load raises, and part 1 goes on to the form. *)
Lemma falta_ano_y_continua :
  falla (load_ANO_ACTUAL fs_sin_ano)
  = Some (FileNotFoundError
            "[Errno 2] No such file or directory: 'ANO_ACTUAL.joblib'")
  ∧ ∃ g, parte1 os_ej fs_sin_ano = Continua g.
Proof. split; [reflexivity |]. eexists. reflexivity. Qed.

(** C5, amended, at the example: without the schema file part 1 stops
    with a banner that contains the exception's text. *)
Lemma parte1_falla_requerida_witness :
  ∃ banner,
    parte1 os_ej fs_sin_esquema = Detenido banner
    ∧ contiene "[Errno 2] No such file or directory: 'X_train_columns.joblib'"
        banner.
Proof.
  destruct (parte1_falla_requerida os_ej fs_sin_esquema) as (_ & Harchivo & _).
  apply Harchivo. reflexivity.
Defined.

(** C10 at the example: without the reference-year file part 1 goes on
    with 2024. *)
Lemma ano_actual_por_defecto_witness :
  primera_falla fs_sin_ano = None
  ∧ ∃ g, parte1 os_ej fs_sin_ano = Continua g
         ∧ ANO_ACTUAL g = 2024
         ∧ cargados fs_sin_ano g.
Proof.
  split; [reflexivity |].
  apply (ano_actual_por_defecto os_ej fs_sin_ano
           (FileNotFoundError
              "[Errno 2] No such file or directory: 'ANO_ACTUAL.joblib'"));
    reflexivity.
Defined.

(** * Further properties *)

(** ** The loader, beyond the two handlers *)

Section LoaderMore.
Context {float Booster : Type}.
Implicit Types (fs : files float Booster) (g : artifacts float Booster).
Implicit Types (os : os_iface) (e : exn).

(** How part 1 ends when one of the ten loads fails: by the class of the
    first exception alone. *)
Lemma parte1_por_falla os fs e :
  primera_falla fs = Some e →
  parte1 os fs
  = match e with
    | FileNotFoundError _ => Detenido (banner_archivo os e)
    | XGBoostError _ => Detenido (banner_modelo e)
    | _ => NoCapturada e
    end.
Proof.
  intros Hfalla. pose proof (cargar_resultado fs) as Hres.
  rewrite Hfalla in Hres. unfold parte1. rewrite Hres. by destruct e.
Qed.

(** An exception that is neither [FileNotFoundError] nor [XGBoostError],
    raised by the first failing load, is caught by no clause: part 1 shows
    no banner of its own and does not reach the form. *)
Theorem parte1_no_capturada os fs e :
  primera_falla fs = Some e →
  (∀ s, e ≠ FileNotFoundError s) →
  (∀ s, e ≠ XGBoostError s) →
  parte1 os fs = NoCapturada e.
Proof.
  intros Hfalla Hfnf Hxgb. rewrite (parte1_por_falla os fs e Hfalla).
  destruct e as [s|s|s|s]; [by destruct (Hfnf s) | by destruct (Hxgb s) | done..].
Qed.

(** The loads that come after the first failure are not attempted: two
    directories whose first failing load raises the same exception end
    part 1 the same way. *)
Theorem parte1_falla_rapida os fs fs' e :
  primera_falla fs = Some e →
  primera_falla fs' = Some e →
  parte1 os fs = parte1 os fs'.
Proof.
  intros H1 H2.
  by rewrite (parte1_por_falla os fs e H1), (parte1_por_falla os fs' e H2).
Qed.

(** Part 1 reaches the form exactly when none of the ten loads fails, and
    then the reference year is the one read from its file when that load
    returns. *)
Theorem parte1_continua_sii os fs :
  (primera_falla fs = None ↔ ∃ g, parte1 os fs = Continua g)
  ∧ ∀ g y, parte1 os fs = Continua g → load_ANO_ACTUAL fs = Ok y →
           ANO_ACTUAL g = y.
Proof.
  pose proof (cargar_resultado fs) as Hres. unfold parte1. split; [split |].
  - intros Hnone. rewrite Hnone in Hres. destruct Hres as (g & Hg & _).
    exists g. by rewrite Hg.
  - intros [g Hg]. destruct (primera_falla fs) as [e|]; [|done].
    rewrite Hres in Hg. destruct e; discriminate Hg.
  - intros g y Hg Hy. destruct (primera_falla fs) as [e|].
    + rewrite Hres in Hg. destruct e; discriminate Hg.
    + destruct Hres as (g' & Hg' & _ & Hano). rewrite Hg' in Hg.
      injection Hg as <-. by rewrite Hano, Hy.
Qed.

Lemma keys_spec (d : gmap string float) :
  NoDup (keys d) ∧ ∀ m, m ∈ keys d ↔ is_Some (d !! m).
Proof.
  unfold keys. split.
  - apply NoDup_fst_map_to_list.
  - intros m. rewrite list_elem_of_fmap. split.
    + intros ([m' x] & -> & Hin). apply elem_of_map_to_list in Hin. by exists x.
    + intros [x Hx]. exists (m, x). split; [done |].
      by apply elem_of_map_to_list.
Qed.

Lemma parte1_opciones os fs g (t : campo_te) :
  parte1 os fs = Continua g → opciones_te g t = keys (tabla_te g t).
Proof.
  intros Hg. unfold parte1 in Hg. destruct (cargar fs) as [g'|e] eqn:Hcargar.
  - injection Hg as <-. revert Hcargar. unfold cargar.
    destruct fs as [m co tm tp ts cy fu tr dr sz an]. simpl.
    destruct m; [|done]. destruct co; [|done]. destruct tm; [|done].
    destruct tp; [|done]. destruct ts; [|done]. destruct cy; [|done].
    destruct fu; [|done]. destruct tr; [|done]. destruct dr; [|done].
    destruct sz; [|done]. simpl. intros [= <-]. by destruct t.
  - destruct e; discriminate Hg.
Qed.

(** After a successful part 1 the options of the three select boxes are
    the keys of the three tables, each once. *)
Theorem opciones_son_claves os fs g :
  parte1 os fs = Continua g →
  (NoDup (ManufacturerUnique g)
   ∧ ∀ m, m ∈ ManufacturerUnique g ↔ is_Some (manufacturer_target_encoding g !! m))
  ∧ (NoDup (PaintColorUnique g)
     ∧ ∀ m, m ∈ PaintColorUnique g ↔ is_Some (paint_color_target_encoding g !! m))
  ∧ (NoDup (StateUnique g)
     ∧ ∀ m, m ∈ StateUnique g ↔ is_Some (state_target_encoding g !! m)).
Proof.
  intros Hg.
  pose proof (parte1_opciones os fs g Manufacturer Hg) as Hm.
  pose proof (parte1_opciones os fs g PaintColor Hg) as Hp.
  pose proof (parte1_opciones os fs g State Hg) as Hs.
  simpl in Hm, Hp, Hs. rewrite Hm, Hp, Hs.
  split; [apply keys_spec |]. split; apply keys_spec.
Qed.

End LoaderMore.

(** ** [split], as the banner uses it *)

Section Split.
Implicit Types (sep cur s rest p : string).

Lemma app_vacia_r s : s +:+ "" = s.
Proof.
  induction s as [|a s IH]; [done |].
  change (String a (s +:+ "") = String a s). by rewrite IH.
Qed.

Lemma length_app_cadena s1 s2 :
  String.length (s1 +:+ s2) = (String.length s1 + String.length s2)%nat.
Proof.
  induction s1 as [|a s1 IH]; [done |].
  change (S (String.length (s1 +:+ s2))
          = S (String.length s1 + String.length s2)). by rewrite IH.
Qed.

(** A string that starts with [sep] is [sep] followed by a rest. *)
Lemma prefix_true sep s :
  String.prefix sep s = true → ∃ rest, s = sep +:+ rest.
Proof.
  revert s. induction sep as [|a sep IH]; intros s Hpre.
  - by exists s.
  - destruct s as [|b s]; [discriminate Hpre |]. simpl in Hpre.
    destruct (Ascii.ascii_dec a b) as [->|]; [|discriminate Hpre].
    destruct (IH s Hpre) as [rest ->]. by exists rest.
Qed.

(** Dropping the characters of an occurrence. *)
Lemma split_go_saltar sep p cur rest :
  split_go sep (String.length p) cur (p +:+ rest) = split_go sep 0 cur rest.
Proof.
  induction p as [|a p IH]; [done |].
  change (split_go sep (String.length p) cur (p +:+ rest)
          = split_go sep 0 cur rest). apply IH.
Qed.

Lemma join_cons sep x l :
  l ≠ [] → join sep (x :: l) = x +:+ sep +:+ join sep l.
Proof. by destruct l. Qed.

Lemma split_go_join sep n :
  sep ≠ "" →
  ∀ s cur, (String.length s ≤ n)%nat →
           join sep (split_go sep 0 cur s) = cur +:+ s.
Proof.
  intros Hsep. induction n as [|n IH]; intros s cur Hlen.
  - destruct s; [|simpl in Hlen; lia]. simpl. by rewrite app_vacia_r.
  - destruct s as [|a s]; [simpl; by rewrite app_vacia_r |].
    change (split_go sep 0 cur (String a s))
      with (if String.prefix sep (String a s)
            then cur :: split_go sep (String.length sep - 1) "" s
            else split_go sep 0 (cur +:+ String a "") s).
    destruct (String.prefix sep (String a s)) eqn:Hpre.
    + apply prefix_true in Hpre as [rest Hrest].
      destruct sep as [|b sep]; [done |].
      change (String a s = String b (sep +:+ rest)) in Hrest.
      injection Hrest as -> ->.
      replace (String.length (String b sep) - 1)%nat with (String.length sep)
        by (simpl; lia).
      rewrite split_go_saltar, join_cons by apply split_go_no_vacia.
      rewrite IH.
      * done.
      * simpl in Hlen. rewrite length_app_cadena in Hlen. lia.
    + rewrite IH by (simpl in Hlen; lia).
      by rewrite app_asociativa.
Qed.

(** Joining the pieces of [split] with the separator gives the string
    back. *)
Theorem join_split sep s : sep ≠ "" → join sep (split sep s) = s.
Proof.
  intros Hsep. unfold split.
  by rewrite (split_go_join sep (String.length s) Hsep s "").
Qed.

Lemma join_ultimo sep l :
  l ≠ [] → ∃ pre, join sep l = pre +:+ default "" (last l).
Proof.
  induction l as [|x l IH]; [done |]. intros _.
  destruct l as [|y l].
  - by exists "".
  - destruct IH as [pre Hpre]; [done |].
    exists (x +:+ sep +:+ pre). rewrite join_cons by done.
    rewrite Hpre. rewrite !app_asociativa. done.
Qed.

(** The split always has a last piece, so the index [-1] of line 55 finds
    one, and that piece, which the banner joins to the working directory,
    is the end of the exception's text. *)
Theorem ultimo_split_sufijo sep s :
  sep ≠ "" →
  ∃ pre p, last (split sep s) = Some p
           ∧ ultimo (split sep s) = p
           ∧ s = pre +:+ p.
Proof.
  intros Hsep.
  destruct (join_ultimo sep (split sep s)) as [pre Hpre].
  { apply split_go_no_vacia. }
  destruct (last (split sep s)) as [p|] eqn:Hlast.
  - exists pre, p. unfold ultimo. rewrite Hlast. simpl.
    split; [done |]. split; [done |].
    simpl in Hpre. rewrite <- Hpre. unfold split.
    by rewrite (split_go_join sep (String.length s) Hsep s "").
  - apply last_None in Hlast. by apply split_go_no_vacia in Hlast.
Qed.

End Split.

(** ** The encoder, beyond the claims *)

Section EncoderMore.
Context {float Booster : Type}.
Implicit Types (datos d : gmap string (value float)) (cols : list string).
Implicit Types (k v w : string) (c : campo) (g : artifacts float Booster).

Lemma datos_lookup_odometer g odometer year manufacturer paint_color state
    cylinders fuel transmission drive size cols :
  datos_codificados g odometer year manufacturer paint_color state
    cylinders fuel transmission drive size cols !! "odometer"
  = Some (VInt odometer).
Proof.
  rewrite datos_lookup_numerica.
  - unfold datos_numericos. by simplify_map_eq.
  - unfold columnas_numericas. set_solver.
Qed.

(** For every input, every position labelled [odometer] of the frame
    handed to [xgb.DMatrix] holds the odometer reading as given. *)
Theorem codificar_odometer g odometer year manufacturer paint_color
    state cylinders fuel transmission drive size cols :
  ∃ X, X_nuevo g odometer year manufacturer paint_color
         state cylinders fuel transmission drive size cols
       = Ok X
       ∧ ∀ i, cols !! i = Some "odometer" →
              X !! i = Some ("odometer", VInt odometer).
Proof.
  destruct (X_nuevo_fila g odometer year manufacturer paint_color state
              cylinders fuel transmission drive size cols)
    as (X & HX & _ & _).
  exists X. split; [done |]. intros i Hi.
  eapply X_nuevo_celda; [done.. |]. apply datos_lookup_odometer.
Qed.

(** The keys of [datos] are the labels of the schema and the five numeric
    names, whatever the inputs: the activations add no key. *)
Theorem datos_claves g odometer year manufacturer paint_color
    state cylinders fuel transmission drive size cols k :
  is_Some (datos_codificados g odometer year manufacturer paint_color state
             cylinders fuel transmission drive size cols !! k)
  ↔ k ∈ cols ∨ k ∈ columnas_numericas.
Proof.
  destruct (decide (k ∈ columnas_numericas)) as [Hnum|Hnum].
  - split; [by right |]. intros _.
    rewrite datos_lookup_numerica by done. unfold datos_numericos.
    unfold columnas_numericas in Hnum.
    rewrite !elem_of_cons, elem_of_nil in Hnum.
    rewrite !lookup_insert_is_Some'.
    destruct Hnum as [->|[->|[->|[->|[->|[]]]]]]; auto 10.
  - rewrite datos_lookup_no_numerica by done. split.
    + case_decide; [by left | by intros [? ?]].
    + intros [Hin|?]; [|done]. rewrite decide_True by done. eauto.
Qed.

(** Every position of the frame handed to [xgb.DMatrix] outside the five
    numeric columns holds 0 or 1. *)
Theorem ohe_binarias g odometer year manufacturer paint_color
    state cylinders fuel transmission drive size cols i k :
  cols !! i = Some k →
  k ∉ columnas_numericas →
  ∃ X, X_nuevo g odometer year manufacturer paint_color
         state cylinders fuel transmission drive size cols
       = Ok X
       ∧ (X !! i = Some (k, VInt 0) ∨ X !! i = Some (k, VInt 1)).
Proof.
  intros Hi Hnum.
  destruct (X_nuevo_fila g odometer year manufacturer paint_color state
              cylinders fuel transmission drive size cols)
    as (X & HX & _ & Hcells).
  exists X. split; [done |].
  destruct (Hcells i k Hi) as (x & Hx & ->).
  rewrite datos_lookup_no_numerica, decide_True in Hx
    by (done || apply list_elem_of_lookup; by exists i).
  injection Hx as <-. case_decide; auto.
Qed.

(** Two selections that name the same labels of the schema fill the same
    dictionary. *)
Lemma datos_segun_columnas g odometer year manufacturer paint_color state
    cylinders fuel transmission drive size
    cylinders' fuel' transmission' drive' size' cols :
  (∀ k, k ∈ cols →
        k ∈ columnas_activas cylinders fuel transmission drive size
        ↔ k ∈ columnas_activas cylinders' fuel' transmission' drive' size') →
  datos_codificados g odometer year manufacturer paint_color state
    cylinders fuel transmission drive size cols
  = datos_codificados g odometer year manufacturer paint_color state
      cylinders' fuel' transmission' drive' size' cols.
Proof.
  intros Hcols. apply map_eq. intros k.
  destruct (decide (k ∈ columnas_numericas)) as [Hnum|Hnum].
  - by rewrite !datos_lookup_numerica.
  - rewrite !datos_lookup_no_numerica by done.
    case_decide as Hin; [|done]. do 2 f_equal.
    apply decide_ext. by apply Hcols.
Qed.

(** The five one-hot values reach the result only through the schema
    labels they name: two selections that name the same labels of the
    schema give the same dictionary, the same frame, the same result of
    the body and the same result of the call. *)
Theorem codificar_segun_columnas {DMatrix : Type}
    (xgb_DMatrix : list (string * value float) → result DMatrix)
    g odometer year manufacturer paint_color state
    cylinders fuel transmission drive size
    cylinders' fuel' transmission' drive' size' cols :
  (∀ k, k ∈ cols →
        k ∈ columnas_activas cylinders fuel transmission drive size
        ↔ k ∈ columnas_activas cylinders' fuel' transmission' drive' size') →
  datos_codificados g odometer year manufacturer paint_color state
    cylinders fuel transmission drive size cols
  = datos_codificados g odometer year manufacturer paint_color state
      cylinders' fuel' transmission' drive' size' cols
  ∧ X_nuevo g odometer year manufacturer paint_color state
      cylinders fuel transmission drive size cols
    = X_nuevo g odometer year manufacturer paint_color state
        cylinders' fuel' transmission' drive' size' cols
  ∧ codificar_cuerpo xgb_DMatrix g odometer year manufacturer paint_color state
      cylinders fuel transmission drive size cols
    = codificar_cuerpo xgb_DMatrix g odometer year manufacturer paint_color
        state cylinders' fuel' transmission' drive' size' cols
  ∧ codificar_datos_para_modelo xgb_DMatrix g odometer year manufacturer
      paint_color state cylinders fuel transmission drive size cols
    = codificar_datos_para_modelo xgb_DMatrix g odometer year manufacturer
        paint_color state cylinders' fuel' transmission' drive' size' cols.
Proof.
  intros Hcols.
  unfold codificar_datos_para_modelo, codificar_cuerpo, X_nuevo.
  by rewrite (datos_segun_columnas g odometer year manufacturer paint_color
                state cylinders fuel transmission drive size
                cylinders' fuel' transmission' drive' size' cols Hcols).
Qed.

(** A transmission whose column is not a label of the schema is encoded
    exactly as the base value ['automatic'], and a drive whose column is
    not a label of the schema exactly as ['awd']: the same frame, the same
    result of the body and the same result of the call. *)
Theorem desconocido_como_base {DMatrix : Type}
    (xgb_DMatrix : list (string * value float) → result DMatrix)
    g odometer year manufacturer paint_color
    state cylinders fuel transmission drive size cols :
  (columna Transmission transmission ∉ cols →
   X_nuevo g odometer year manufacturer paint_color state
     cylinders fuel transmission drive size cols
   = X_nuevo g odometer year manufacturer paint_color state
       cylinders fuel "automatic" drive size cols
   ∧ codificar_cuerpo xgb_DMatrix g odometer year manufacturer paint_color
       state cylinders fuel transmission drive size cols
     = codificar_cuerpo xgb_DMatrix g odometer year manufacturer paint_color
         state cylinders fuel "automatic" drive size cols
   ∧ codificar_datos_para_modelo xgb_DMatrix g odometer year manufacturer
       paint_color state cylinders fuel transmission drive size cols
     = codificar_datos_para_modelo xgb_DMatrix g odometer year manufacturer
         paint_color state cylinders fuel "automatic" drive size cols)
  ∧ (columna Drive drive ∉ cols →
     X_nuevo g odometer year manufacturer paint_color state
       cylinders fuel transmission drive size cols
     = X_nuevo g odometer year manufacturer paint_color state
         cylinders fuel transmission "awd" size cols
     ∧ codificar_cuerpo xgb_DMatrix g odometer year manufacturer paint_color
         state cylinders fuel transmission drive size cols
       = codificar_cuerpo xgb_DMatrix g odometer year manufacturer paint_color
           state cylinders fuel transmission "awd" size cols
     ∧ codificar_datos_para_modelo xgb_DMatrix g odometer year manufacturer
         paint_color state cylinders fuel transmission drive size cols
       = codificar_datos_para_modelo xgb_DMatrix g odometer year manufacturer
           paint_color state cylinders fuel transmission "awd" size cols).
Proof.
  split; intros Hout;
    unfold codificar_datos_para_modelo, codificar_cuerpo, X_nuevo.
  - rewrite (datos_segun_columnas g odometer year manufacturer paint_color
               state cylinders fuel transmission drive size
               cylinders fuel "automatic" drive size cols); [done |].
    intros k Hk. rewrite !elem_of_columnas_activas.
    split; intros (c & v & Hact & ->); destruct c; simpl in Hact;
      try (by eexists _, v; split; [|done]).
    case_decide; [|done]. by injection Hact as <-.
  - rewrite (datos_segun_columnas g odometer year manufacturer paint_color
               state cylinders fuel transmission drive size
               cylinders fuel transmission "awd" size cols); [done |].
    intros k Hk. rewrite !elem_of_columnas_activas.
    split; intros (c & v & Hact & ->); destruct c; simpl in Hact;
      try (by eexists _, v; split; [|done]).
    case_decide; [|done]. by injection Hact as <-.
Qed.

(** Two values of one field are told apart in the frame handed to
    [xgb.DMatrix]: if the field's value in one input is not its base value
    and has its column in the schema, and the field's value in another
    input is different, the two frames differ, whatever the other inputs
    are. *)
Theorem ohe_distingue g c cols
    odometer year manufacturer paint_color state
    cylinders fuel transmission drive size
    odometer' year' manufacturer' paint_color' state'
    cylinders' fuel' transmission' drive' size' :
  base c ≠ Some (seleccion c cylinders fuel transmission drive size) →
  columna c (seleccion c cylinders fuel transmission drive size) ∈ cols →
  seleccion c cylinders fuel transmission drive size
  ≠ seleccion c cylinders' fuel' transmission' drive' size' →
  X_nuevo g odometer year manufacturer paint_color state
    cylinders fuel transmission drive size cols
  ≠ X_nuevo g odometer' year' manufacturer' paint_color'
      state' cylinders' fuel' transmission' drive' size' cols.
Proof.
  intros Hbase Hin Hne Heq.
  assert (activa c cylinders fuel transmission drive size
          = Some (seleccion c cylinders fuel transmission drive size)) as Hact.
  { rewrite activa_seleccion. by rewrite decide_False. }
  assert (activa c cylinders' fuel' transmission' drive' size'
          ≠ Some (seleccion c cylinders fuel transmission drive size)) as Hact'.
  { rewrite activa_seleccion. case_decide; [done |].
    intros [= Hv]. by apply Hne. }
  destruct (X_nuevo_fila g odometer year manufacturer paint_color state
              cylinders fuel transmission drive size cols)
    as (X & HX & _ & Hcells).
  destruct (X_nuevo_fila g odometer' year' manufacturer' paint_color' state'
              cylinders' fuel' transmission' drive' size' cols)
    as (X' & HX' & _ & Hcells').
  rewrite HX, HX' in Heq. injection Heq as <-.
  apply list_elem_of_lookup in Hin as [i Hi].
  destruct (Hcells i _ Hi) as (x & Hx & Hrow).
  destruct (Hcells' i _ Hi) as (x' & Hx' & Hrow').
  rewrite datos_lookup_columna, decide_True in Hx, Hx'
    by (apply list_elem_of_lookup; by exists i).
  rewrite decide_True in Hx by exact Hact.
  rewrite decide_False in Hx' by exact Hact'.
  congruence.
Qed.

(** The calls to [activar_ohe] can be made in any order, and repeating
    one changes nothing. *)
Theorem activar_ohe_conmuta (f v f' v' : string) d :
  activar_ohe f v (activar_ohe f' v' d) = activar_ohe f' v' (activar_ohe f v d)
  ∧ activar_ohe f v (activar_ohe f v d) = activar_ohe f v d.
Proof.
  split; apply map_eq; intros k; rewrite !activar_ohe_lookup;
    repeat case_decide; by destruct (d !! k).
Qed.

(** Through the form the age is never negative: a year within the
    slider's bounds, 1980 to the reference year, puts in the frame handed
    to [xgb.DMatrix] an age between 0 and the reference year minus
    1980. *)
Theorem age_del_formulario g odometer year manufacturer paint_color
    state cylinders fuel transmission drive size cols :
  (year_min ≤ year ≤ ANO_ACTUAL g)%Z →
  ∃ X a, X_nuevo g odometer year manufacturer paint_color
           state cylinders fuel transmission drive size cols
         = Ok X
         ∧ (0 ≤ a ≤ ANO_ACTUAL g - year_min)%Z
         ∧ ∀ i, cols !! i = Some "age" → X !! i = Some ("age", VInt a).
Proof.
  intros Hyear.
  destruct (X_nuevo_fila g odometer year manufacturer paint_color state
              cylinders fuel transmission drive size cols)
    as (X & HX & _ & _).
  exists X, (ANO_ACTUAL g - year). split; [done |]. split; [lia |].
  intros i Hi. eapply X_nuevo_celda; [done.. |]. apply datos_lookup_age.
Qed.

End EncoderMore.

(** ** The form *)

Section Form.
Context {float Booster : Type}.
Implicit Types (g : artifacts float Booster) (cols l : list string).

Lemma lista_index_elem (x : string) l :
  x ∈ l →
  ∃ i, lista_index x l = Ok i
       ∧ l !! i = Some x
       ∧ ∀ j, (j < i)%nat → l !! j ≠ Some x.
Proof.
  induction l as [|y l IH]; intros Hin; [by apply elem_of_nil in Hin |].
  simpl. destruct (decide (x = y)) as [->|Hne].
  - exists 0%nat. split; [done |]. split; [done |]. intros j Hj. lia.
  - apply elem_of_cons in Hin as [?|Hin]; [done |].
    destruct (IH Hin) as (i & -> & Hi & Hmin).
    exists (S i). split; [done |]. split; [done |].
    intros [|j] Hj; simpl; [congruence |]. apply Hmin. lia.
Qed.

(** The initial index of a widget: with no option the expression raises
    (at [opciones[0]]); with at least one it is the position of the first
    occurrence of the default, which is the preferred value when that is
    an option and the first option otherwise. *)
Theorem indice_por_defecto_spec (preferido : string) l :
  (l = [] → ∃ e, indice_por_defecto preferido l = Raise e)
  ∧ (l ≠ [] →
     ∃ d i, valor_por_defecto preferido l = Ok d
            ∧ indice_por_defecto preferido l = Ok i
            ∧ l !! i = Some d
            ∧ (∀ j, (j < i)%nat → l !! j ≠ Some d)
            ∧ (preferido ∈ l → d = preferido)
            ∧ (preferido ∉ l → i = 0%nat)).
Proof.
  unfold indice_por_defecto, valor_por_defecto. split.
  - intros ->. rewrite decide_False by apply not_elem_of_nil. simpl. eauto.
  - intros Hne. destruct (decide (preferido ∈ l)) as [Hin|Hout].
    + destruct (lista_index_elem preferido l Hin) as (i & Hi & Hli & Hmin).
      exists preferido, i. simpl.
      split; [done |]. split; [done |]. split; [done |]. split; [done |].
      split; done.
    + destruct l as [|y l]; [done |]. exists y, 0%nat. simpl.
      rewrite decide_True by done.
      split; [done |]. split; [done |]. split; [done |].
      split; [intros j Hj; lia |]. split; done.
Qed.

(** The button handler never shows a price: the call to the encoder
    raises on every click, [predict] is not reached, and the page shows
    the error banner with the text of that exception, which is the one of
    [xgb.DMatrix] when it refuses the frame and the one of the pickling
    otherwise, followed by the info message. *)
Theorem boton_siempre_error {DMatrix precio : Type}
    (xgb_DMatrix : list (string * value float) → result DMatrix)
    (predict : Booster → DMatrix → result (list precio))
    (formato : precio → string) g odometer year
    manufacturer paint_color state cylinders fuel transmission drive size :
  ∃ X, X_nuevo g odometer year manufacturer paint_color
         state cylinders fuel transmission drive size (X_train_columns g)
       = Ok X
       ∧ boton xgb_DMatrix predict formato g odometer year manufacturer
           paint_color state cylinders fuel transmission drive size
         = [st_error ("Ocurrió un error al predecir: "
                      +:+ exn_str match xgb_DMatrix X with
                                  | Ok _ => error_pickle
                                  | Raise e => e
                                  end);
            st_info "Asegúrese de que los datos ingresados sean válidos y que las variables de codificación se hayan cargado correctamente."].
Proof.
  destruct (X_nuevo_fila g odometer year manufacturer paint_color state
              cylinders fuel transmission drive size (X_train_columns g))
    as (X & HX & _ & _).
  exists X. split; [exact HX |].
  unfold boton, codificar_datos_para_modelo, codificar_cuerpo, st_cache_data.
  rewrite HX. simpl. destruct (xgb_DMatrix X); reflexivity.
Qed.

End Form.

(** ** The form and the encoder together *)

Section FormEncoder.
Context {float Booster : Type}.
Implicit Types (g : artifacts float Booster) (cols : list string).

(** An option of a select box that [lower] leaves as it is reaches its
    table: in the frame handed to [xgb.DMatrix] the field's column holds
    the number stored for that option, never the default 0 of an unknown
    key. *)
Theorem opcion_listada_codificada os (fs : files float Booster) g
    (lower : string → string) (t : campo_te) (m : string)
    odometer year manufacturer paint_color state
    cylinders fuel transmission drive size cols :
  parte1 os fs = Continua g →
  m ∈ opciones_te g t →
  lower m = m →
  valor_te t manufacturer paint_color state = lower m →
  ∃ x X, tabla_te g t !! m = Some x
         ∧ X_nuevo g odometer year manufacturer paint_color
             state cylinders fuel transmission drive size cols
           = Ok X
         ∧ ∀ i, cols !! i = Some (columna_te t) →
                X !! i = Some (columna_te t, VFloat x).
Proof.
  intros Hg Hm Hlower Hvalor.
  rewrite (parte1_opciones os fs g t Hg) in Hm.
  apply keys_spec in Hm as [x Hx].
  destruct (X_nuevo_fila g odometer year manufacturer paint_color state
              cylinders fuel transmission drive size cols)
    as (X & HX & _ & _).
  exists x, X. split; [done |]. split; [done |]. intros i Hi.
  eapply X_nuevo_celda; [done.. |].
  by rewrite datos_lookup_te, Hvalor, Hlower, Hx.
Qed.

End FormEncoder.

(** ** The further properties at the example deployment *)

(** A truncated schema file: the exception is caught by no clause. *)
Lemma parte1_no_capturada_witness :
  primera_falla fs_esquema_corrupto = Some (OtherException "Ran out of input")
  ∧ parte1 os_ej fs_esquema_corrupto
    = NoCapturada (OtherException "Ran out of input").
Proof.
  split; [reflexivity |].
  apply parte1_no_capturada;
    [reflexivity | intros s; discriminate | intros s; discriminate].
Defined.

(** Missing the schema file only, or the schema file and every file after
    it: part 1 ends the same way. *)
Lemma parte1_falla_rapida_witness :
  primera_falla fs_sin_esquema = primera_falla fs_solo_modelo
  ∧ parte1 os_ej fs_sin_esquema = parte1 os_ej fs_solo_modelo.
Proof.
  split; [reflexivity |].
  apply (parte1_falla_rapida os_ej fs_sin_esquema fs_solo_modelo
           (FileNotFoundError
              "[Errno 2] No such file or directory: 'X_train_columns.joblib'"));
    reflexivity.
Defined.

(** The example directory has all ten files: part 1 reaches the form with
    the year of the file. *)
Lemma parte1_continua_sii_witness :
  primera_falla fs_ej = None
  ∧ ∃ g, parte1 os_ej fs_ej = Continua g ∧ ANO_ACTUAL g = 2024.
Proof.
  split; [reflexivity |].
  destruct (parte1_continua_sii os_ej fs_ej) as [[Hsi _] Hano].
  destruct (Hsi eq_refl) as [g Hg].
  exists g. split; [exact Hg |]. apply (Hano g 2024 Hg). reflexivity.
Defined.

(** ["ford"] is a key of the manufacturer table, so an option of the
    manufacturer select box. *)
Lemma opciones_son_claves_witness :
  parte1 os_ej fs_ej = Continua g_ej
  ∧ "ford" ∈ ManufacturerUnique g_ej.
Proof.
  split; [reflexivity |].
  destruct (opciones_son_claves os_ej fs_ej g_ej eq_refl) as [[_ Hclaves] _].
  apply Hclaves. exists (1523075 # 100)%Q. vm_compute. reflexivity.
Defined.

(** The text of a missing-file exception, split at [": "] and joined. *)
Lemma join_split_witness :
  ": " ≠ ""
  ∧ join ": "
      (split ": " "[Errno 2] No such file or directory: 'FuelUnique.joblib'")
    = "[Errno 2] No such file or directory: 'FuelUnique.joblib'".
Proof.
  split; [discriminate |]. apply join_split. discriminate.
Defined.

Lemma ultimo_split_sufijo_witness :
  ": " ≠ ""
  ∧ ∃ pre p,
      last (split ": " "[Errno 2] No such file or directory: 'FuelUnique.joblib'")
      = Some p
      ∧ ultimo
          (split ": " "[Errno 2] No such file or directory: 'FuelUnique.joblib'")
        = p
      ∧ "[Errno 2] No such file or directory: 'FuelUnique.joblib'" = pre +:+ p.
Proof.
  split; [discriminate |]. apply ultimo_split_sufijo. discriminate.
Defined.

(** [fuel_gas], at position 9 of the example schema, holds 0 or 1. *)
Lemma ohe_binarias_witness :
  X_train_columns g_ej !! 9%nat = Some "fuel_gas"
  ∧ ("fuel_gas" ∉ columnas_numericas)
  ∧ ∃ X, X_nuevo g_ej 50000 2019 "ford" "white" "ca"
           "6 cylinders" "gas" "automatic" "fwd" "mid-size" (X_train_columns g_ej)
         = Ok X
         ∧ (X !! 9%nat = Some ("fuel_gas", VInt 0)
            ∨ X !! 9%nat = Some ("fuel_gas", VInt 1)).
Proof.
  split; [reflexivity |]. split; [compute_done |].
  apply (ohe_binarias (float:=Q) (Booster:=unit)); [reflexivity | compute_done].
Defined.

(** Two fuels without a column in a three-column schema. *)
Lemma codificar_segun_columnas_witness :
  X_nuevo g_ej 50000 2019 "ford" "white" "ca"
    "6 cylinders" "diesel" "automatic" "fwd" "mid-size"
    ["odometer"; "fuel_gas"; "fuel_other"]
  = X_nuevo g_ej 50000 2019 "ford" "white" "ca"
      "6 cylinders" "hybrid" "automatic" "fwd" "mid-size"
      ["odometer"; "fuel_gas"; "fuel_other"]
  ∧ codificar_datos_para_modelo xgb_DMatrix_ej g_ej 50000 2019 "ford" "white"
      "ca" "6 cylinders" "diesel" "automatic" "fwd" "mid-size"
      ["odometer"; "fuel_gas"; "fuel_other"]
    = codificar_datos_para_modelo xgb_DMatrix_ej g_ej 50000 2019 "ford"
        "white" "ca" "6 cylinders" "hybrid" "automatic" "fwd" "mid-size"
        ["odometer"; "fuel_gas"; "fuel_other"].
Proof.
  destruct (codificar_segun_columnas xgb_DMatrix_ej g_ej 50000 2019 "ford"
              "white" "ca" "6 cylinders" "diesel" "automatic" "fwd" "mid-size"
              "6 cylinders" "hybrid" "automatic" "fwd" "mid-size"
              ["odometer"; "fuel_gas"; "fuel_other"])
    as (_ & Hframe & _ & Hcall).
  - intros k Hk.
    repeat (apply elem_of_cons in Hk as [->|Hk]; [compute_done |]).
    by apply elem_of_nil in Hk.
  - split; [exact Hframe | exact Hcall].
Defined.

(** A transmission the example schema has no column for. *)
Lemma desconocido_como_base_witness :
  (columna Transmission "cvt" ∉ X_train_columns g_ej)
  ∧ X_nuevo g_ej 50000 2019 "ford" "white" "ca"
      "6 cylinders" "gas" "cvt" "fwd" "mid-size" (X_train_columns g_ej)
    = X_nuevo g_ej 50000 2019 "ford" "white" "ca"
        "6 cylinders" "gas" "automatic" "fwd" "mid-size" (X_train_columns g_ej).
Proof.
  split; [compute_done |].
  apply (proj1 (desconocido_como_base xgb_DMatrix_ej g_ej 50000 2019 "ford"
                  "white" "ca" "6 cylinders" "gas" "cvt" "fwd" "mid-size"
                  (X_train_columns g_ej))).
  compute_done.
Defined.

(** Gas and other fuel, with everything else equal. *)
Lemma ohe_distingue_witness :
  base Fuel ≠ Some "gas"
  ∧ columna Fuel "gas" ∈ X_train_columns g_ej
  ∧ "gas" ≠ "other"
  ∧ X_nuevo g_ej 50000 2019 "ford" "white" "ca"
      "6 cylinders" "gas" "automatic" "fwd" "mid-size" (X_train_columns g_ej)
    ≠ X_nuevo g_ej 50000 2019 "ford" "white" "ca"
        "6 cylinders" "other" "automatic" "fwd" "mid-size" (X_train_columns g_ej).
Proof.
  split; [discriminate |]. split; [compute_done |]. split; [discriminate |].
  apply (ohe_distingue g_ej Fuel); [discriminate | compute_done | discriminate].
Defined.

(** A 2019 car on the 2024 form. *)
Lemma age_del_formulario_witness :
  (year_min ≤ 2019 ≤ ANO_ACTUAL g_ej)%Z
  ∧ ∃ X a, X_nuevo g_ej 50000 2019 "ford" "white" "ca"
             "6 cylinders" "gas" "automatic" "fwd" "mid-size" (X_train_columns g_ej)
           = Ok X
           ∧ (0 ≤ a ≤ ANO_ACTUAL g_ej - year_min)%Z
           ∧ ∀ i, X_train_columns g_ej !! i = Some "age" →
                  X !! i = Some ("age", VInt a).
Proof.
  split; [unfold year_min; simpl; lia |].
  apply age_del_formulario. unfold year_min. simpl. lia.
Defined.

(** The cylinders widget of the example starts at ['6 cylinders'], the
    third option. *)
Lemma indice_por_defecto_spec_witness :
  lista g_ej Cylinders ≠ []
  ∧ ∃ d i, valor_por_defecto (preferido Cylinders) (lista g_ej Cylinders) = Ok d
           ∧ indice_por_defecto (preferido Cylinders) (lista g_ej Cylinders) = Ok i
           ∧ lista g_ej Cylinders !! i = Some d
           ∧ (∀ j, (j < i)%nat → lista g_ej Cylinders !! j ≠ Some d)
           ∧ (preferido Cylinders ∈ lista g_ej Cylinders → d = preferido Cylinders)
           ∧ (preferido Cylinders ∉ lista g_ej Cylinders → i = 0%nat).
Proof.
  split; [discriminate |].
  apply (proj2 (indice_por_defecto_spec (preferido Cylinders)
                  (lista g_ej Cylinders))).
  discriminate.
Defined.

(** ["ford"], picked in the manufacturer select box and lower-cased. *)
Lemma opcion_listada_codificada_witness :
  parte1 os_ej fs_ej = Continua g_ej
  ∧ "ford" ∈ opciones_te g_ej Manufacturer
  ∧ lower_ascii "ford" = "ford"
  ∧ ∃ x X, tabla_te g_ej Manufacturer !! "ford" = Some x
           ∧ X_nuevo g_ej 50000 2019 (lower_ascii "ford")
               "white" "ca" "6 cylinders" "gas" "automatic" "fwd" "mid-size"
               (X_train_columns g_ej)
             = Ok X
           ∧ ∀ i, X_train_columns g_ej !! i = Some (columna_te Manufacturer) →
                  X !! i = Some (columna_te Manufacturer, VFloat x).
Proof.
  split; [reflexivity |]. split; [compute_done |]. split; [reflexivity |].
  apply (opcion_listada_codificada os_ej fs_ej g_ej lower_ascii Manufacturer
           "ford");
    [reflexivity | compute_done | reflexivity | reflexivity].
Defined.

(** The lower-casing of the examples on a capitalised option. *)
Example lower_ascii_ejemplo : lower_ascii "Mid-Size 4X4" = "mid-size 4x4".
Proof. reflexivity. Qed.

(** The handler at the example, with a constructor that accepts every
    frame and a model that would return a price: the page shows the error
    banner. *)
Example boton_ejemplo :
  boton xgb_DMatrix_ej (λ _ _, Ok [(1850000 # 100)%Q]) (λ _, "18,500.00") g_ej
    50000 2019 "ford" "white" "ca" "6 cylinders" "gas" "automatic" "fwd"
    "mid-size"
  = [st_error "Ocurrió un error al predecir: ctypes objects containing pointers cannot be pickled";
     st_info "Asegúrese de que los datos ingresados sean válidos y que las variables de codificación se hayan cargado correctamente."].
Proof. vm_compute. reflexivity. Qed.
